(** * Lambda layer deployment template: the two custom-resource handlers

    A shallow embedding of [source/create-lambda-layer.py] (the build
    orchestrator) and [source/test-lambda-layer.py] (the deployment
    validator), with the properties of their specification stated and
    proved over it.

    Python values that the handlers manipulate are embedded as follows:
    - [str] as [string], one character per code point, for code points
      below 256; dictionaries with string keys as [gmap string _];
    - an optional dictionary entry ([dict.get]) as [option];
    - exceptions derived from [Exception] as values of type [exn], threaded
      by a state-and-error monad [M] whose state holds what the handler
      mutates, so that [except Exception] catches every [exn]; a raise
      outside [Exception] ([SystemExit], [KeyboardInterrupt]) is not an
      [exn] and is modelled apart, where imported code can cause it;
    - everything outside the process (package registry, installer, scratch
      file system operations that can fail, object store, interpreter
      facts) as a read-only record of outcomes, one field per call.

    The values of [ResourceProperties] are strings, as CloudFormation
    delivers them. Logging is left out: it changes nothing the handlers
    read or return. *)

From Stdlib Require Import String Ascii List ZArith DecimalString.
From stdpp Require Import gmap strings list fin_maps.

Local Open Scope string_scope.
Local Open Scope list_scope.

(** ** Python prelude *)

Module Py.

(** Classes derived from [Exception] that the handlers raise or
    discriminate on: [ImportErrorSubclass] is any proper subclass of
    [ImportError] ([ModuleNotFoundError], ...); every other class derived
    from [Exception] and not from [ImportError] that reaches the handlers
    from a library call is [External], its name being a label only. *)
Inductive exn_class :=
  | ValueError
  | FileNotFoundError
  | ImportError
  | ImportErrorSubclass (name : string)
  | Exception
  | External (name : string).

(** [isinstance(e, ImportError)] *)
Definition is_import_error (c : exn_class) : bool :=
  match c with
  | ImportError | ImportErrorSubclass _ => true
  | _ => false
  end.

Record exn := Raise { class_of : exn_class; str_of : string }.

Inductive result (A : Type) :=
  | Returned (a : A)
  | Raised (e : exn).
Arguments Returned {A} a.
Arguments Raised {A} e.

(** Computations over a mutable state [S] that may raise. A raise keeps
    the state reached so far, as a Python exception does. *)
Definition M (S A : Type) : Type := S -> result A * S.

Definition ret {S A} (a : A) : M S A := fun s => (Returned a, s).

Definition bind {S A B} (m : M S A) (k : A -> M S B) : M S B :=
  fun s => match m s with
           | (Returned a, s') => k a s'
           | (Raised e, s') => (Raised e, s')
           end.

Definition raise {S A} (e : exn) : M S A := fun s => (Raised e, s).

(** A pure outcome inside a computation. *)
Definition lift {S A} (r : result A) : M S A := fun s => (r, s).

Definition get {S} : M S S := fun s => (Returned s, s).

Definition modify {S} (f : S -> S) : M S unit := fun s => (Returned tt, f s).

(** [try: m except Exception as e: h e] *)
Definition try_except {S A} (m : M S A) (h : exn -> M S A) : M S A :=
  fun s => match m s with
           | (Returned a, s') => (Returned a, s')
           | (Raised e, s') => h e s'
           end.

(** [try: m finally: f]; an exception of [f] replaces the outcome of [m]. *)
Definition try_finally {S A} (m : M S A) (f : M S unit) : M S A :=
  fun s => match m s with
           | (r, s') => match f s' with
                        | (Returned _, s'') => (r, s'')
                        | (Raised e, s'') => (Raised e, s'')
                        end
           end.

(** [for x in xs: body x] *)
Fixpoint for_each {S A} (xs : list A) (body : A -> M S unit) : M S unit :=
  match xs with
  | [] => ret tt
  | x :: xs' => bind (body x) (fun _ => for_each xs' body)
  end.

Module Notations.
Notation "x <- c1 ;; c2" := (bind c1 (fun x => c2))
  (at level 100, c1 at next level, right associativity).
Notation "c1 ;; c2" := (bind c1 (fun _ => c2))
  (at level 100, right associativity).
End Notations.

(** [s.replace(old, new)] for a one-character [old]. *)
Fixpoint replace (old : ascii) (new : string) (s : string) : string :=
  match s with
  | EmptyString => EmptyString
  | String c s' =>
      if Ascii.eqb c old then new +:+ replace old new s'
      else String c (replace old new s')
  end.

(** [sep.join(xs)] *)
Fixpoint join (sep : string) (xs : list string) : string :=
  match xs with
  | [] => ""
  | [x] => x
  | x :: xs' => x +:+ sep +:+ join sep xs'
  end.

(** [sorted(xs)] on strings: a stable insertion sort by code point order. *)
Fixpoint insert_sorted (x : string) (xs : list string) : list string :=
  match xs with
  | [] => [x]
  | y :: ys => if String.ltb x y then x :: y :: ys else y :: insert_sorted x ys
  end.

Definition sorted (xs : list string) : list string :=
  fold_left (fun acc x => insert_sorted x acc) xs [].

(** ["%d" % n] *)
Definition str_nat (n : nat) : string := NilZero.string_of_uint (Nat.to_uint n).
Definition str_int (z : Z) : string := NilZero.string_of_int (Z.to_int z).

(** [repr(s)] of a string: single quotes unless the string has a single
    quote and no double quote; backslash, the chosen quote, newline,
    carriage return and tab are escaped, and every other code point that is
    not printable is written [\xNN]: below 256 these are the controls
    0-31 and 127-159, the no-break space 160 and the soft hyphen 173. *)
Definition hex_digit (n : N) : ascii :=
  ascii_of_N (if (n <? 10)%N then 48 + n else 87 + n)%N.

Definition repr_char (quote c : ascii) : string :=
  let n := N_of_ascii c in
  if Ascii.eqb c "\" then "\\"
  else if Ascii.eqb c quote then String "\" (String quote "")
  else if (n =? 10)%N then "\n"
  else if (n =? 13)%N then "\r"
  else if (n =? 9)%N then "\t"
  else if ((n <? 32) || ((127 <=? n) && (n <=? 160)) || (n =? 173))%N
       then "\x" +:+ String (hex_digit (n / 16)) (String (hex_digit (n mod 16)) "")
  else String c "".

Fixpoint contains_char (c : ascii) (s : string) : bool :=
  match s with
  | EmptyString => false
  | String d s' => Ascii.eqb c d || contains_char c s'
  end.

Definition single_quote : ascii := "039".
Definition double_quote : ascii := "034".

Definition repr (s : string) : string :=
  let quote :=
    if contains_char single_quote s && negb (contains_char double_quote s)
    then double_quote else single_quote in
  String quote (String.concat "" (map (repr_char quote) (list_ascii_of_string s)))
    +:+ String quote "".

(** The text of the [FileNotFoundError] that the [os] and [shutil] calls
    raise on a missing path. *)
Definition no_such_file (path : string) : exn :=
  Raise FileNotFoundError ("[Errno 2] No such file or directory: " +:+ repr path).

(** [str([x])] for a string [x] *)
Definition str_singleton_list (x : string) : string := "[" +:+ repr x +:+ "]".

(** Truthiness of a [dict.get] result holding a string: [None] and [''] are
    false. *)
Definition truthy (v : option string) : bool :=
  match v with
  | None => false
  | Some s => negb (String.eqb s "")
  end.

(** [str(v)] inside an f-string or [%s], for a [dict.get] result. *)
Definition fmt (v : option string) : string :=
  match v with
  | None => "None"
  | Some s => s
  end.

(** [m] relates every state it starts from to the state it ends in, whether
    it returns or raises. *)
Definition respects {S A} (R : S -> S -> Prop) (m : M S A) : Prop :=
  forall s r s', m s = (r, s') -> R s s'.

End Py.

Import Py Py.Notations.

(** ** The CloudFormation event and the response helper *)

(** The event as the handlers read it: [event.get('RequestType')] and
    [event.get('ResourceProperties', {})]. *)
Record event := Event {
  RequestType : option string;
  ResourceProperties : option (gmap string string)
}.

Definition properties_of (ev : event) : gmap string string :=
  match ResourceProperties ev with
  | Some p => p
  | None => ∅
  end.

Module cfnresponse.
(** Modelled from the spec: the [cfnresponse] helper module is imported by
    both handlers and is not part of the sources; its two status constants
    are the SUCCESS and FAILED of the response signalling. *)
Definition SUCCESS : string := "SUCCESS".
Definition FAILED : string := "FAILED".

(** Modelled from the spec: one call of
    [cfnresponse.send(event, context, status, data, reason=...)], which
    signals the status and the response payload: the status, a snapshot of
    the data dictionary and the reason. The call itself does not raise. *)
Record signal := Signal {
  sig_status : string;
  sig_data : gmap string string;
  sig_reason : option string
}.
End cfnresponse.

(** ** [source/test-lambda-layer.py] *)

Module TestLambdaLayer.

(** What [importlib.import_module(name)] does: the module's [__version__]
    attribute if it has one, or the exception raised. *)
Inductive import_result :=
  | Imported (version_attr : option string)
  | ImportRaises (e : exn).

(** The interpreter the validator runs under. *)
Record runtime := Runtime {
  version_major : nat;
  version_minor : nat;
  platform_machine : string;
  import_module : string -> import_result
}.

Record state := State {
  response_data : gmap string string;
  sent : list cfnresponse.signal
}.

Definition initial_response : gmap string string :=
  <["Status" := ""]> (<["Message" := ""]> (<["TestPackage" := ""]>
  (<["TestPackageVersion" := ""]> (<["TestRuntime" := ""]>
  (<["TestArchitecture" := ""]> ∅))))).

Definition initial_state : state :=
  {| response_data := initial_response; sent := [] |}.

(** [response_data.update({"Status": st, "Message": msg})] *)
Definition update_response (st msg : string) : M state unit :=
  modify (fun s => {| response_data := <["Message" := msg]> (<["Status" := st]> (response_data s));
                      sent := sent s |}).

Definition send (status : string) (reason : option string) : M state unit :=
  modify (fun s => {| response_data := response_data s;
                      sent := sent s ++ [cfnresponse.Signal status (response_data s) reason] |}).

(** [properties.get(key, 'N/A')] *)
Definition get_or_na (properties : gmap string string) (key : string) : string :=
  default "N/A" (properties !! key).

Definition current_runtime (rt : runtime) : string :=
  "python" +:+ str_nat (version_major rt) +:+ "." +:+ str_nat (version_minor rt).

(** Line 40: ["arm64" if current_arch == "aarch64" else current_arch] *)
Definition canonical_arch (machine : string) : string :=
  if String.eqb machine "aarch64" then "arm64" else machine.

Definition current_arch (rt : runtime) : string :=
  canonical_arch (platform_machine rt).

(** Lines 43-50: the import attempt, giving
    [(installed_version, package_status)]; [except ImportError] catches
    [ImportError] and its subclasses, anything else is raised on. *)
Definition import_package (rt : runtime) (package_import_name : string)
  : result (string * string) :=
  match import_module rt package_import_name with
  | Imported v => Returned (default "Version Not Found" v, "INSTALLED")
  | ImportRaises e =>
      if is_import_error (class_of e)
      then Returned ("NOT INSTALLED", "NOT INSTALLED")
      else Raised e
  end.

(** Lines 53-58 *)
Definition overall_status (package_status installed_version target_version
                           current_rt target_runtime cur_arch target_architecture : string)
  : string :=
  if forallb id [String.eqb package_status "INSTALLED";
                 String.eqb installed_version target_version;
                 String.eqb current_rt target_runtime;
                 String.eqb cur_arch target_architecture]
  then "SUCCESS" else "FAILED".

(** Lines 61-66 *)
Definition test_message (package_name package_status target_version installed_version
                         target_runtime current_rt target_architecture cur_arch : string)
  : string :=
  "Installation: Target: " +:+ package_name +:+ ", Current: " +:+ package_status +:+ ". " +:+
  "Version: Target: " +:+ target_version +:+ ", Current: " +:+ installed_version +:+ ". " +:+
  "Runtime: Target: " +:+ target_runtime +:+ ", Current: " +:+ current_rt +:+ ". " +:+
  "Architecture: Target: " +:+ target_architecture +:+ ", Current: " +:+ cur_arch +:+ ". ".

(** Lines 29-70: the body of the outer [try]. *)
Definition validate (rt : runtime) (ev : event) : M state unit :=
  let properties := properties_of ev in
  let package_name := get_or_na properties "PackageName" in
  let package_import_name := get_or_na properties "PackageImportName" in
  let target_version := get_or_na properties "PackageVersion" in
  let target_runtime := get_or_na properties "Runtime" in
  let target_architecture := get_or_na properties "Architecture" in
  let current_rt := current_runtime rt in
  let cur_arch := current_arch rt in
  imported <- lift (import_package rt package_import_name) ;;
  let '(installed_version, package_status) := imported in
  let status := overall_status package_status installed_version target_version
                               current_rt target_runtime cur_arch target_architecture in
  let message := test_message package_name package_status target_version installed_version
                              target_runtime current_rt target_architecture cur_arch in
  update_response status message ;;
  send status None.

Definition lambda_handler (rt : runtime) (ev : event) : M state (gmap string string) :=
  if bool_decide (RequestType ev = Some "Delete") then
    send cfnresponse.SUCCESS None ;;
    s <- get ;; ret (response_data s)
  else
    try_except (validate rt ev)
      (fun e =>
         let error_message := str_of e in
         update_response "FAILED" error_message ;;
         send cfnresponse.FAILED (Some error_message)) ;;
    s <- get ;; ret (response_data s).

(** One invocation: a fresh [response_data], nothing signalled yet. *)
Definition invoke (rt : runtime) (ev : event) : result (gmap string string) * state :=
  lambda_handler rt ev initial_state.

(** What importing the package does in full. Besides the outcomes of
    [import_result], the code of the imported module can raise outside
    [Exception] ([SystemExit] from [sys.exit], [KeyboardInterrupt]);
    neither [except ImportError] (line 48) nor [except Exception] (line 71)
    catches that, so it leaves the handler. *)
Inductive import_behaviour :=
  | Settles (r : import_result)
  | Escapes (class_name message : string).

Record interpreter := Interpreter {
  interpreter_major : nat;
  interpreter_minor : nat;
  interpreter_machine : string;
  import_behaviour_of : string -> import_behaviour
}.

(** The interpreter as the handler sees it when its one import settles
    with [r]. *)
Definition settled (it : interpreter) (r : import_result) : runtime :=
  {| version_major := interpreter_major it; version_minor := interpreter_minor it;
     platform_machine := interpreter_machine it; import_module := fun _ => r |}.

(** How an invocation ends: the handler finishes, or an exception outside
    [Exception] leaves it. *)
Inductive outcome :=
  | Finishes (r : result (gmap string string)) (st : state)
  | Escaped (class_name message : string) (st : state).

Definition finishes (run : result (gmap string string) * state) : outcome :=
  Finishes (fst run) (snd run).

(** One invocation under an interpreter. A Delete event returns before the
    import (lines 24-26). Otherwise an import that escapes does so at line
    45, inside both [try] blocks and before [response_data] is updated or
    anything is sent. *)
Definition run (it : interpreter) (ev : event) : outcome :=
  if bool_decide (RequestType ev = Some "Delete") then
    finishes (invoke (settled it (Imported None)) ev)
  else
    match import_behaviour_of it (get_or_na (properties_of ev) "PackageImportName") with
    | Settles r => finishes (invoke (settled it r) ev)
    | Escapes class_name message => Escaped class_name message initial_state
    end.

End TestLambdaLayer.

(** ** [source/create-lambda-layer.py] *)

Module CreateLambdaLayer.

(** *** Paths *)

Definition starts_with (c : ascii) (s : string) : bool :=
  match s with
  | String d _ => Ascii.eqb c d
  | EmptyString => false
  end.

Fixpoint ends_with (c : ascii) (s : string) : bool :=
  match s with
  | EmptyString => false
  | String d EmptyString => Ascii.eqb c d
  | String _ s' => ends_with c s'
  end.

(** [os.path.join(a, b)] on POSIX; more components are joined left to right. *)
Definition path_join (a b : string) : string :=
  if starts_with "/" b then b
  else if String.eqb a "" || ends_with "/" a then a +:+ b
  else a +:+ "/" +:+ b.

(** [s.rfind(c)], [-1] when [c] does not occur. *)
Fixpoint rfind_from (c : ascii) (s : string) (i : Z) (found : Z) : Z :=
  match s with
  | EmptyString => found
  | String d s' => rfind_from c s' (i + 1) (if Ascii.eqb c d then i else found)
  end.

Definition rfind (c : ascii) (s : string) : Z := rfind_from c s 0 (-1).

Fixpoint all_dots (s : string) : bool :=
  match s with
  | EmptyString => true
  | String d s' => Ascii.eqb d "." && all_dots s'
  end.

(** [os.path.splitext(p)[0]]: cut at the last dot of the last component,
    unless that component has only leading dots before it. *)
Definition splitext_root (p : string) : string :=
  let sepIndex := rfind "/" p in
  let dotIndex := rfind "." p in
  if (sepIndex <? dotIndex)%Z then
    let filenameIndex := Z.to_nat (sepIndex + 1) in
    if all_dots (String.substring filenameIndex (Z.to_nat dotIndex - filenameIndex) p)
    then p
    else String.substring 0 (Z.to_nat dotIndex) p
  else p.

(** Every proper ancestor directory named in [p]: [os.makedirs] creates
    the missing ones. *)
Fixpoint ancestors_from (seen : string) (rest : string) : list string :=
  match rest with
  | EmptyString => []
  | String c rest' =>
      (if Ascii.eqb c "/" && negb (String.eqb seen "") then [seen] else [])
        ++ ancestors_from (seen +:+ String c "") rest'
  end.

Definition ancestors (p : string) : list string := ancestors_from "" p.

(** *** The world outside the process *)

(** An external step reports by returning or raising and, independently,
    leaves its output on disk or not: the source itself does not trust a
    returning archive call and checks for the file (lines 102-103). *)
Record step := Step {
  raises : option exn;
  leaves_output : bool
}.

(** The registry's answer to [http.request('GET', url)] as far as
    [get_latest_package_version] reads it. *)
Inductive response_data_json :=
  | NotJson (e : exn)
  | Json (info : option (option string)).

Inductive http_result :=
  | HttpRaises (e : exn)
  | HttpResponse (status : Z) (data : response_data_json).

(** [shutil_make_archive] writes its output file in place, so when it
    raises while adding members that file can already be on disk. *)
Record world := World {
  http_request : string -> http_result;
  pip_install : string -> string -> step;
  os_makedirs : string -> step;
  shutil_move : string -> string -> option exn;
  shutil_make_archive : string -> string -> string -> step;
  s3_upload_file : string -> string -> string -> option exn
}.

(** What the handler does to the outside, in order. *)
Inductive effect :=
  | HttpGet (url : string)
  | PipInstall (requirement target : string)
  | MakeDirs (path : string)
  | Move (src dst : string)
  | MakeArchive (base_name root_dir base_dir : string)
  | UploadFile (file bucket key : string)
  | Rmtree (path : string)
  | Remove (path : string)
  | Send (sig : cfnresponse.signal).

(** *** Handler state: the response dictionary, the set of paths that
    exist in the scratch file system, and the effects so far. *)
Record state := State {
  response_data : gmap string string;
  fs : gset string;
  effects : list effect
}.

Definition set_response (f : gmap string string -> gmap string string) : M state unit :=
  modify (fun s => {| response_data := f (response_data s); fs := fs s; effects := effects s |}).

Definition set_fs (f : gset string -> gset string) : M state unit :=
  modify (fun s => {| response_data := response_data s; fs := f (fs s); effects := effects s |}).

Definition emit (e : effect) : M state unit :=
  modify (fun s => {| response_data := response_data s; fs := fs s; effects := effects s ++ [e] |}).

(** [os.path.exists(p)] *)
Definition path_exists (p : string) : M state bool :=
  s <- get ;; ret (bool_decide (p ∈ fs s)).

(** [q] is [p] or lies below it. *)
Definition within (p q : string) : bool :=
  String.eqb q p || String.prefix (p +:+ "/") q.

(** [shutil.rmtree(p)] *)
Definition rmtree (p : string) : M state unit :=
  present <- path_exists p ;;
  if present : bool then
    emit (Rmtree p) ;;
    set_fs (filter (fun q => within p q = false))
  else raise (no_such_file p).

(** [os.remove(p)] *)
Definition os_remove (p : string) : M state unit :=
  present <- path_exists p ;;
  if present : bool then
    emit (Remove p) ;;
    set_fs (fun f => f ∖ {[p]})
  else raise (no_such_file p).

(** An external step that writes [outputs]. *)
Definition run_step (e : effect) (st : step) (outputs : list string) : M state unit :=
  emit e ;;
  (if leaves_output st then set_fs (fun f => f ∪ list_to_set outputs) else ret tt) ;;
  match raises st with
  | Some x => raise x
  | None => ret tt
  end.

(** [shutil.move(src, dst)] *)
Definition move (w : world) (src dst : string) : M state unit :=
  emit (Move src dst) ;;
  present <- path_exists src ;;
  if present : bool then
    match shutil_move w src dst with
    | Some x => raise x
    | None => set_fs (fun f => filter (fun q => within src q = false) f ∪ {[dst]})
    end
  else raise (no_such_file src).

(** *** Lines 26-43 *)

Definition SUPPORTED_PACKAGES : list string :=
  ["boto3"; "requests"; "urllib3"; "aws-lambda-powertools"; "aws-xray-sdk"].

Definition get_latest_package_version (w : world) (package_name : string) : M state string :=
  try_except
    (let url := "https://pypi.org/pypi/" +:+ package_name +:+ "/json" in
     emit (HttpGet url) ;;
     match http_request w url with
     | HttpRaises e => raise e
     | HttpResponse status data =>
         if negb (status =? 200)%Z then
           raise (Raise ValueError ("PyPI request failed with status " +:+ str_int status))
         else
           match data with
           | NotJson e => raise e
           | Json None =>
               raise (Raise (External "AttributeError")
                            "'NoneType' object has no attribute 'get'")
           | Json (Some version) =>
               if negb (truthy version) then
                 raise (Raise ValueError "Version information not found in PyPI response")
               else ret (fmt version)
           end
     end)
    (fun e =>
       let error_message :=
         "Failed to get latest version for " +:+ package_name +:+ ": " +:+ str_of e in
       raise (Raise Exception error_message)).

(** *** Lines 45-112 *)

Definition temp_root : string := "/tmp".
Definition site_packages_dir : string := path_join temp_root "site-packages".
Definition python_dir : string := path_join temp_root "python".
Definition temp_dirs : list string := [site_packages_dir; python_dir].

Definition zip_file_of (package_name package_version runtime_version : string) : string :=
  path_join temp_root
    (package_name +:+ "-" +:+ runtime_version +:+ "-" +:+ package_version +:+ ".zip").

(** The loop of lines 79-81 and of lines 110-112, and its body. *)
Definition remove_if_exists (dir_path : string) : M state unit :=
  present <- path_exists dir_path ;;
  if present : bool then rmtree dir_path else ret tt.

Definition remove_temp_dirs : M state unit :=
  for_each temp_dirs remove_if_exists.

Definition create_layer_package (w : world)
    (package_name package_version runtime_version : string) : M state string :=
  if negb (forallb (fun v => negb (String.eqb v ""))
                   [package_name; package_version; runtime_version]) then
    raise (Raise ValueError "Missing required parameters for package installation.")
  else
    let zip_file := zip_file_of package_name package_version runtime_version in
    try_finally
      (try_except
         ((* cleanup of existing directories and files *)
          remove_temp_dirs ;;
          stale <- path_exists zip_file ;;
          (if stale : bool then os_remove zip_file else ret tt) ;;
          (* pip install *)
          let requirement := package_name +:+ "==" +:+ package_version in
          run_step (PipInstall requirement site_packages_dir)
                   (pip_install w requirement site_packages_dir)
                   [site_packages_dir] ;;
          (* layer directory structure *)
          let python_lib_path := path_join (path_join python_dir "lib") runtime_version in
          run_step (MakeDirs python_lib_path) (os_makedirs w python_lib_path)
                   (ancestors python_lib_path ++ [python_lib_path]) ;;
          move w site_packages_dir (path_join python_lib_path "site-packages") ;;
          (* ZIP file *)
          let zip_base := splitext_root zip_file in
          run_step (MakeArchive zip_base temp_root "python")
                   (shutil_make_archive w zip_base temp_root "python")
                   [zip_base +:+ ".zip"] ;;
          created <- path_exists zip_file ;;
          if negb created then
            raise (Raise FileNotFoundError ("Failed to create ZIP file: " +:+ zip_file))
          else ret zip_file)
         (fun e => raise (Raise Exception ("Layer package creation failed: " +:+ str_of e))))
      remove_temp_dirs.

(** *** Lines 114-196 *)

Definition initial_response : gmap string string :=
  <["S3Location" := ""]> (<["S3Bucket" := ""]> (<["S3Key" := ""]>
  (<["PackageName" := ""]> (<["PackageVersion" := ""]> (<["PackageImportName" := ""]>
  (<["CompatibleRuntimes" := ""]> (<["CompatibleArchitectures" := ""]> ∅))))))).

Definition send (status : string) (reason : option string) : M state unit :=
  s <- get ;; emit (Send (cfnresponse.Signal status (response_data s) reason)).

(** Line 148: the names of the required properties whose value is false. *)
Definition missing_props (required_props : list (string * option string)) : list string :=
  map fst (List.filter (fun kv => negb (truthy (snd kv))) required_props).

(** Line 153: [package_name not in SUPPORTED_PACKAGES] *)
Definition not_supported (package_name : option string) : bool :=
  match package_name with
  | Some n => negb (existsb (String.eqb n) SUPPORTED_PACKAGES)
  | None => true
  end.

(** Line 158 *)
Definition import_name_of (package_name : string) : string :=
  replace "-" "_" package_name.

(** Lines 166-167 *)
Definition layer_name_of (runtime architecture package_name : string) : string :=
  replace "." "" runtime +:+ "-" +:+ architecture +:+ "-" +:+ package_name.

Definition s3_key_of (runtime architecture package_name : string) : string :=
  layer_name_of runtime architecture package_name +:+ ".zip".

(** Lines 170-177 *)
Definition upload (w : world) (zip_file bucket_name s3_key : string) : M state unit :=
  try_finally
    (emit (UploadFile zip_file bucket_name s3_key) ;;
     match s3_upload_file w zip_file bucket_name s3_key with
     | Some e => raise e
     | None => ret tt
     end)
    (present <- path_exists zip_file ;;
     if present : bool then os_remove zip_file else ret tt).

(** Lines 180-184: [response_data.update({...})] *)
Definition update_response_data
    (bucket_name s3_key package_name package_version package_import_name
     runtime architecture : string) (r : gmap string string) : gmap string string :=
  <["CompatibleArchitectures" := str_singleton_list architecture]>
  (<["CompatibleRuntimes" := str_singleton_list runtime]>
  (<["PackageImportName" := package_import_name]>
  (<["PackageVersion" := package_version]>
  (<["PackageName" := package_name]>
  (<["S3Key" := s3_key]>
  (<["S3Bucket" := bucket_name]>
  (<["S3Location" := "s3://" +:+ bucket_name +:+ "/" +:+ s3_key]> r))))))).

(** Lines 139-188: the body of the outer [try]. *)
Definition build_and_publish (w : world) (ev : event) : M state unit :=
  let properties := properties_of ev in
  let bucket_name := properties !! "BucketName" in
  let package_name := properties !! "PackageName" in
  let runtime := properties !! "Runtime" in
  let architecture := properties !! "Architecture" in
  let required_props :=
    [("BucketName", bucket_name); ("PackageName", package_name);
     ("Runtime", runtime); ("Architecture", architecture)] in
  let missing := missing_props required_props in
  if negb (bool_decide (missing = [])) then
    raise (Raise ValueError ("Missing required properties: " +:+ join ", " missing))
  else if not_supported package_name then
    raise (Raise ValueError
             ("Package '" +:+ fmt package_name +:+ "' is not supported. Supported packages: "
              +:+ join ", " (sorted SUPPORTED_PACKAGES) +:+ String "010" ""))
  else
    match bucket_name, package_name, runtime, architecture with
    | Some bucket_name, Some package_name, Some runtime, Some architecture =>
        package_version <- get_latest_package_version w package_name ;;
        let package_import_name := import_name_of package_name in
        zip_file <- create_layer_package w package_name package_version runtime ;;
        let s3_key := s3_key_of runtime architecture package_name in
        upload w zip_file bucket_name s3_key ;;
        set_response (update_response_data bucket_name s3_key package_name package_version
                                           package_import_name runtime architecture) ;;
        send "SUCCESS" None
    | _, _, _, _ =>
        (* a property that is None passed neither check above *)
        raise (Raise (External "AttributeError") "'NoneType' object has no attribute 'replace'")
    end.

Definition lambda_handler (w : world) (ev : event) : M state (gmap string string) :=
  if bool_decide (RequestType ev = Some "Delete") then
    send "SUCCESS" None ;;
    s <- get ;; ret (response_data s)
  else
    try_except (build_and_publish w ev)
      (fun e =>
         let error_msg := "Lambda Layer creation failed: " +:+ str_of e in
         send "FAILED" (Some error_msg)) ;;
    s <- get ;; ret (response_data s).

(** One invocation on a scratch file system [scratch]: a fresh
    [response_data], no effect yet. *)
Definition initial_state (scratch : gset string) : state :=
  {| response_data := initial_response; fs := scratch; effects := [] |}.

Definition invoke (w : world) (scratch : gset string) (ev : event)
  : result (gmap string string) * state :=
  lambda_handler w ev (initial_state scratch).

End CreateLambdaLayer.

(** ** Vocabulary of the specification and sample invocations *)

Module ValidatorSpec.
Import TestLambdaLayer.

(** The four fields that only the initial dictionary writes. *)
Definition test_fields : list string :=
  ["TestPackage"; "TestPackageVersion"; "TestRuntime"; "TestArchitecture"].

(** The dictionary after [response_data.update] with a status and a message. *)
Definition reported (status message : string) : gmap string string :=
  <["Message" := message]> (<["Status" := status]> initial_response).

(** The name under which the validator imports the package. *)
Definition import_name (ev : event) : string :=
  get_or_na (properties_of ev) "PackageImportName".

(** The four comparisons in the words of the specification, on what the
    interpreter itself gives: importing the package succeeds; the version
    the package carries, or the text that stands for a missing attribute, is
    the target version; the interpreter's version written [python<major>.
    <minor>] is the target runtime; the machine string, with aarch64 read as
    arm64, is the target architecture. *)
Definition package_imports (rt : runtime) (ev : event) : Prop :=
  exists version_attr, import_module rt (import_name ev) = Imported version_attr.

Definition version_matches (rt : runtime) (ev : event) : Prop :=
  exists version_attr,
    import_module rt (import_name ev) = Imported version_attr /\
    default "Version Not Found" version_attr = get_or_na (properties_of ev) "PackageVersion".

Definition runtime_matches (rt : runtime) (ev : event) : Prop :=
  "python" +:+ str_nat (version_major rt) +:+ "." +:+ str_nat (version_minor rt)
  = get_or_na (properties_of ev) "Runtime".

Definition architecture_matches (rt : runtime) (ev : event) : Prop :=
  (platform_machine rt = "aarch64" /\ get_or_na (properties_of ev) "Architecture" = "arm64") \/
  (platform_machine rt <> "aarch64" /\
   get_or_na (properties_of ev) "Architecture" = platform_machine rt).

Definition all_four_hold (rt : runtime) (ev : event) : Prop :=
  package_imports rt ev /\ version_matches rt ev /\
  runtime_matches rt ev /\ architecture_matches rt ev.

(** The four comparisons of the verdict on what one invocation observes:
    the import gave [(installed_version, package_status)], and the
    architecture compared with the target is the string [arch]. *)
Definition four_match_on_arch (arch : string) (rt : runtime) (ev : event)
    (installed_version package_status : string) : Prop :=
  package_status = "INSTALLED" /\
  installed_version = get_or_na (properties_of ev) "PackageVersion" /\
  current_runtime rt = get_or_na (properties_of ev) "Runtime" /\
  arch = get_or_na (properties_of ev) "Architecture".

(** [import_module] of a Python 3.13 on Graviton with boto3 1.35.0 in its
    layer. *)
Definition sample_import (name : string) : import_result :=
  if String.eqb name "boto3" then Imported (Some "1.35.0")
  else ImportRaises (Raise ImportError ("No module named '" +:+ name +:+ "'")).

Definition sample_runtime : runtime :=
  {| version_major := 3; version_minor := 13;
     platform_machine := "aarch64"; import_module := sample_import |}.

Definition sample_properties : gmap string string :=
  <["PackageName" := "boto3"]> (<["PackageImportName" := "boto3"]>
  (<["PackageVersion" := "1.35.0"]> (<["Runtime" := "python3.13"]>
  (<["Architecture" := "arm64"]> ∅)))).

Definition sample_event : event :=
  {| RequestType := Some "Create"; ResourceProperties := Some sample_properties |}.

(** An interpreter in which importing any package fails on a syntax error
    of the package. *)
Definition broken_runtime : runtime :=
  {| version_major := 3; version_minor := 13; platform_machine := "x86_64";
     import_module := fun _ =>
       ImportRaises (Raise (External "SyntaxError") "invalid syntax (__init__.py, line 1)") |}.

(** An interpreter whose packages import but carry no [__version__]. *)
Definition unversioned_runtime : runtime :=
  {| version_major := 3; version_minor := 13; platform_machine := "aarch64";
     import_module := fun _ => Imported None |}.

(** The sample event asking for a package that is not in the layer. *)
Definition absent_package_event : event :=
  {| RequestType := Some "Create";
     ResourceProperties := Some (<["PackageImportName" := "requests"]> sample_properties) |}.




(** An interpreter in which the package calls [sys.exit(1)] when imported. *)
Definition exiting_interpreter : interpreter :=
  {| interpreter_major := 3; interpreter_minor := 13; interpreter_machine := "aarch64";
     import_behaviour_of := fun _ => Escapes "SystemExit" "1" |}.

(** An interpreter in which importing fails on a syntax error of the
    package. *)
Definition broken_interpreter : interpreter :=
  {| interpreter_major := 3; interpreter_minor := 13; interpreter_machine := "x86_64";
     import_behaviour_of := fun _ =>
       Settles (ImportRaises (Raise (External "SyntaxError")
                                "invalid syntax (__init__.py, line 1)")) |}.

End ValidatorSpec.

Module BuilderSpec.
Import CreateLambdaLayer.

(** The fields of the result record. *)
Definition result_fields : list string :=
  ["S3Location"; "S3Bucket"; "S3Key"; "PackageName"; "PackageVersion";
   "PackageImportName"; "CompatibleRuntimes"; "CompatibleArchitectures"].

Definition required_properties : list string :=
  ["BucketName"; "PackageName"; "Runtime"; "Architecture"].

(** The required properties that are absent or empty, in their order. *)
Definition absent_or_empty (properties : gmap string string) : list string :=
  filter (fun k => properties !! k = None \/ properties !! k = Some "") required_properties.

(** The allow-list as the error message enumerates it. *)
Definition allow_list_text : string :=
  "aws-lambda-powertools, aws-xray-sdk, boto3, requests, urllib3".

(** The key format in the words of the specification: runtime without dots,
    architecture and name concatenated with no delimiter, then [.zip]. *)
Definition spec_store_key (runtime architecture name : string) : string :=
  replace "." "" runtime +:+ architecture +:+ name +:+ ".zip".

(** The import name in the words of the specification: every hyphen
    becomes an underscore, every other character stays. *)
Definition spec_import_char (c : ascii) : ascii :=
  if Ascii.eqb c "-" then "_"%char else c.

(** The keys under which an invocation uploaded, in order. *)
Definition uploaded_keys (l : list effect) : list string :=
  omap (fun x => match x with UploadFile _ _ key => Some key | _ => None end) l.

(** The outcome of an invocation that failed before any side effect. *)
Definition failed_with (scratch : gset string) (message : string)
  : result (gmap string string) * state :=
  (Returned initial_response,
   {| response_data := initial_response; fs := scratch;
      effects := [Send (cfnresponse.Signal "FAILED" initial_response
                          (Some ("Lambda Layer creation failed: " +:+ message)))] |}).

(** Sample worlds: every step succeeds and the registry answers
    [version]. *)
Definition done : step := {| raises := None; leaves_output := true |}.

Definition healthy_world (version : string) : world :=
  {| http_request := fun _ => HttpResponse 200 (Json (Some (Some version)));
     pip_install := fun _ _ => done;
     os_makedirs := fun _ => done;
     shutil_move := fun _ _ => None;
     shutil_make_archive := fun _ _ _ => done;
     s3_upload_file := fun _ _ _ => None |}.

(** The store refuses the upload. *)
Definition upload_fails_world : world :=
  {| http_request := http_request (healthy_world "1.35.0");
     pip_install := fun _ _ => done;
     os_makedirs := fun _ => done;
     shutil_move := fun _ _ => None;
     shutil_make_archive := fun _ _ _ => done;
     s3_upload_file := fun _ _ _ => Some (Raise (External "S3UploadFailedError") "Access Denied") |}.

(** The archive step runs out of space after it has opened its output
    file. *)
Definition archive_fails_world : world :=
  {| http_request := http_request (healthy_world "1.35.0");
     pip_install := fun _ _ => done;
     os_makedirs := fun _ => done;
     shutil_move := fun _ _ => None;
     shutil_make_archive := fun _ _ _ =>
       {| raises := Some (Raise (External "OSError") "[Errno 28] No space left on device");
          leaves_output := true |};
     s3_upload_file := fun _ _ _ => None |}.

Definition properties_for (bucket_name package_name : string) : gmap string string :=
  <["BucketName" := bucket_name]> (<["PackageName" := package_name]>
  (<["Runtime" := "python3.13"]> (<["Architecture" := "arm64"]> ∅))).

Definition create_event (bucket_name package_name : string) : event :=
  {| RequestType := Some "Create";
     ResourceProperties := Some (properties_for bucket_name package_name) |}.

Definition delete_event : event :=
  {| RequestType := Some "Delete";
     ResourceProperties := Some (properties_for "layer-bucket" "boto3") |}.

(** No bucket, and an empty architecture. *)
Definition incomplete_event : event :=
  {| RequestType := Some "Create";
     ResourceProperties :=
       Some (<["PackageName" := "numpy"]> (<["Runtime" := "python3.13"]>
            (<["Architecture" := ""]> ∅))) |}.

(** Effects of the build pipeline proper: everything but an upload and a
    signal. *)
Definition local_effect (e : effect) : Prop :=
  match e with
  | UploadFile _ _ _ | Send _ => False
  | _ => True
  end.

(** The response dictionary is untouched and only local effects were added. *)
Definition quiet (s s' : state) : Prop :=
  response_data s' = response_data s /\
  exists l, effects s' = effects s ++ l /\ Forall local_effect l.

(** The upload the event asks for: to its bucket, under the key computed
    from its runtime, architecture and package name. *)
Definition expected_upload (ev : event) (x : effect) : Prop :=
  exists zip_file bucket_name package_name runtime architecture,
    properties_of ev !! "BucketName" = Some bucket_name /\
    properties_of ev !! "PackageName" = Some package_name /\
    properties_of ev !! "Runtime" = Some runtime /\
    properties_of ev !! "Architecture" = Some architecture /\
    x = UploadFile zip_file bucket_name (s3_key_of runtime architecture package_name).

(** A run of the [try] body that raised. *)
Definition failed_run (ev : event) (s s' : state) : Prop :=
  response_data s' = response_data s /\
  exists l, effects s' = effects s ++ l /\
            Forall (fun x => local_effect x \/ expected_upload ev x) l.

(** A run of the [try] body that returned. *)
Definition published_run (w : world) (ev : event) (s s' : state) : Prop :=
  exists bucket_name package_name runtime architecture package_version zip_file l1 l2,
    properties_of ev !! "BucketName" = Some bucket_name /\
    properties_of ev !! "PackageName" = Some package_name /\
    properties_of ev !! "Runtime" = Some runtime /\
    properties_of ev !! "Architecture" = Some architecture /\
    response_data s' =
      update_response_data bucket_name (s3_key_of runtime architecture package_name)
        package_name package_version (import_name_of package_name) runtime architecture
        (response_data s) /\
    effects s' =
      effects s ++ l1
        ++ UploadFile zip_file bucket_name (s3_key_of runtime architecture package_name) :: l2
        ++ [Send (cfnresponse.Signal "SUCCESS" (response_data s') None)] /\
    Forall local_effect l1 /\ Forall local_effect l2 /\
    s3_upload_file w zip_file bucket_name (s3_key_of runtime architecture package_name) = None /\
    zip_file ∉ fs s'.

(** The state a failed invocation ends in, from the state [s'] in which the
    [try] body raised [e]. *)
Definition after_failure (e : exn) (s' : state) : state :=
  {| response_data := response_data s'; fs := fs s';
     effects := effects s' ++
       [Send (cfnresponse.Signal "FAILED" (response_data s')
                (Some ("Lambda Layer creation failed: " +:+ str_of e)))] |}.

(** Every effect of an invocation is a local one, the upload the event
    asks for, or a signal. *)
Definition invocation_effect (ev : event) (x : effect) : Prop :=
  local_effect x \/ expected_upload ev x \/ exists sig, x = Send sig.

(** Only effects satisfying [P] were added. *)
Definition adds (P : effect -> Prop) (s s' : state) : Prop :=
  exists l, effects s' = effects s ++ l /\ Forall P l.

(** The effects of building a layer package from [requirement]: file
    system steps, and the installer run on that requirement into the flat
    staging directory. *)
Definition build_effect (requirement : string) (e : effect) : Prop :=
  match e with
  | PipInstall r target => r = requirement /\ target = site_packages_dir
  | MakeDirs _ | Move _ _ | MakeArchive _ _ _ | Rmtree _ | Remove _ => True
  | HttpGet _ | UploadFile _ _ _ | Send _ => False
  end.

(** What follows the installation inside [create_layer_package]: making
    directories, moving, archiving and removing; no further installer run. *)
Definition after_install (e : effect) : Prop :=
  match e with
  | MakeDirs _ | Move _ _ | MakeArchive _ _ _ | Rmtree _ | Remove _ => True
  | _ => False
  end.

(** The installer runs among the effects [l]. *)
Definition installer_runs (l : list effect) : list (string * string) :=
  omap (fun x => match x with PipInstall r t => Some (r, t) | _ => None end) l.



(** Strings that Python's [repr] leaves as they are between single
    quotes: printable ASCII without the single quote and the backslash. *)
Definition plain_char (c : ascii) : bool :=
  let n := N_of_ascii c in
  (32 <=? n)%N && (n <=? 126)%N && negb (Ascii.eqb c "'") && negb (Ascii.eqb c "\").

Definition plain (s : string) : bool := forallb plain_char (list_ascii_of_string s).

(** Removals, the only effects of cleaning up. *)
Definition removal (e : effect) : Prop :=
  match e with
  | Rmtree _ | Remove _ => True
  | _ => False
  end.

Definition is_signal (e : effect) : Prop :=
  match e with
  | Send _ => True
  | _ => False
  end.

(** The registry URL of a package. *)
Definition registry_url (package_name : string) : string :=
  "https://pypi.org/pypi/" +:+ package_name +:+ "/json".


(** The installer returns without having written anything. *)
Definition empty_install_world : world :=
  {| http_request := http_request (healthy_world "1.35.0");
     pip_install := fun _ _ => {| raises := None; leaves_output := false |};
     os_makedirs := fun _ => done;
     shutil_move := fun _ _ => None;
     shutil_make_archive := fun _ _ _ => done;
     s3_upload_file := fun _ _ _ => None |}.

(** The registry does not know the package. *)
Definition registry_404_world : world :=
  {| http_request := fun _ => HttpResponse 404 (Json None);
     pip_install := fun _ _ => done;
     os_makedirs := fun _ => done;
     shutil_move := fun _ _ => None;
     shutil_make_archive := fun _ _ _ => done;
     s3_upload_file := fun _ _ _ => None |}.

(** A scratch root in which an earlier attempt left everything behind. *)
Definition stale_scratch : gset string :=
  {[ "/tmp"; "/tmp/site-packages"; "/tmp/python"; "/tmp/python/lib";
     "/tmp/boto3-python3.13-1.35.0.zip" ]}.


End BuilderSpec.

(** * Properties of the deployment validator *)

Module TestLambdaLayerProofs.
Import TestLambdaLayer ValidatorSpec.

Section Invocation.
Variable rt : runtime.
Variable ev : event.

Let properties := properties_of ev.
Let target_version := get_or_na properties "PackageVersion".
Let target_runtime := get_or_na properties "Runtime".
Let target_architecture := get_or_na properties "Architecture".
Let package_name := get_or_na properties "PackageName".
Let package_import_name := get_or_na properties "PackageImportName".

Lemma validator_invoke_delete :
  RequestType ev = Some "Delete" ->
  invoke rt ev =
    (Returned initial_response,
     {| response_data := initial_response;
        sent := [cfnresponse.Signal "SUCCESS" initial_response None] |}).
Proof.
  intros Hdel. unfold invoke, lambda_handler.
  rewrite bool_decide_eq_true_2 by exact Hdel. reflexivity.
Qed.

Lemma invoke_compared installed_version package_status :
  RequestType ev <> Some "Delete" ->
  import_package rt package_import_name = Returned (installed_version, package_status) ->
  let status := overall_status package_status installed_version target_version
                  (current_runtime rt) target_runtime (current_arch rt) target_architecture in
  let message := test_message package_name package_status target_version installed_version
                   target_runtime (current_runtime rt) target_architecture (current_arch rt) in
  invoke rt ev =
    (Returned (reported status message),
     {| response_data := reported status message;
        sent := [cfnresponse.Signal status (reported status message) None] |}).
Proof.
  intros Hreq Himp status message. unfold invoke, lambda_handler.
  rewrite bool_decide_eq_false_2 by exact Hreq.
  unfold validate, bind, try_except, lift.
  fold properties. fold package_import_name. rewrite Himp. reflexivity.
Qed.

Lemma invoke_raised e :
  RequestType ev <> Some "Delete" ->
  import_package rt package_import_name = Raised e ->
  invoke rt ev =
    (Returned (reported "FAILED" (str_of e)),
     {| response_data := reported "FAILED" (str_of e);
        sent := [cfnresponse.Signal "FAILED" (reported "FAILED" (str_of e))
                   (Some (str_of e))] |}).
Proof.
  intros Hreq Himp. unfold invoke, lambda_handler.
  rewrite bool_decide_eq_false_2 by exact Hreq.
  unfold validate, bind, try_except, lift.
  fold properties. fold package_import_name. rewrite Himp. reflexivity.
Qed.
End Invocation.

Lemma reported_status status message : reported status message !! "Status" = Some status.
Proof. unfold reported. rewrite lookup_insert_ne by discriminate. apply lookup_insert_eq. Qed.

Lemma reported_test_field status message k :
  k ∈ test_fields -> reported status message !! k = Some "".
Proof.
  unfold test_fields. rewrite !elem_of_cons, elem_of_nil.
  intros [-> | [-> | [-> | [-> | []]]]]; reflexivity.
Qed.

Lemma overall_status_success ps iv tv cr tr ca ta :
  overall_status ps iv tv cr tr ca ta = "SUCCESS" <->
  ps = "INSTALLED" /\ iv = tv /\ cr = tr /\ ca = ta.
Proof.
  unfold overall_status. simpl. unfold id.
  destruct (String.eqb_spec ps "INSTALLED"), (String.eqb_spec iv tv),
    (String.eqb_spec cr tr), (String.eqb_spec ca ta); simpl;
    split; try discriminate; try tauto; intuition congruence.
Qed.

Lemma overall_status_failed ps iv tv cr tr ca ta :
  overall_status ps iv tv cr tr ca ta = "FAILED" <->
  ~ (ps = "INSTALLED" /\ iv = tv /\ cr = tr /\ ca = ta).
Proof.
  rewrite <- overall_status_success. unfold overall_status.
  destruct (forallb _ _); split; intros H; try discriminate; try reflexivity.
  exfalso. apply H. reflexivity.
Qed.




(** The sample interpreter passes the sample event; asked for a package
    that is not in the layer, it fails. *)
Example sample_verdicts :
  all_four_hold sample_runtime sample_event /\
  ~ package_imports sample_runtime absent_package_event.
Proof.
  split.
  - split; [exists (Some "1.35.0"); reflexivity |].
    split; [exists (Some "1.35.0"); split; reflexivity |].
    split; [reflexivity | left; split; reflexivity].
  - intros (v & Hv). discriminate Hv.
Qed.

(** C8. The machine string aarch64 is canonicalised to arm64 before the
    architecture comparison, so the verdict of a build event compares the
    target Architecture with arm64 when the machine reports aarch64, and with
    the machine string itself in every other case. *)
Theorem validator_canonical_architecture
    (rt : runtime) (ev : event) (installed_version package_status : string) :
  RequestType ev <> Some "Delete" ->
  import_package rt (get_or_na (properties_of ev) "PackageImportName")
    = Returned (installed_version, package_status) ->
  exists data status,
    fst (invoke rt ev) = Returned data /\
    data !! "Status" = Some status /\
    (platform_machine rt = "aarch64" ->
       current_arch rt = "arm64" /\
       (status = "SUCCESS" <->
        four_match_on_arch "arm64" rt ev installed_version package_status)) /\
    (platform_machine rt <> "aarch64" ->
       current_arch rt = platform_machine rt /\
       (status = "SUCCESS" <->
        four_match_on_arch (platform_machine rt) rt ev installed_version package_status)).
Proof.
  intros Hreq Himp.
  rewrite (invoke_compared rt ev _ _ Hreq Himp). cbn [fst].
  eexists _, _. split; [reflexivity |]. split; [apply reported_status |].
  unfold four_match_on_arch.
  split; intros Hm.
  - assert (current_arch rt = "arm64") as Hc
      by (unfold current_arch, canonical_arch; rewrite Hm; reflexivity).
    split; [exact Hc |]. rewrite overall_status_success, Hc. reflexivity.
  - assert (current_arch rt = platform_machine rt) as Hc.
    { unfold current_arch, canonical_arch.
      destruct (String.eqb_spec (platform_machine rt) "aarch64"); [contradiction | reflexivity]. }
    split; [exact Hc |]. rewrite overall_status_success, Hc. reflexivity.
Qed.

Lemma validator_canonical_architecture_witness :
  RequestType sample_event <> Some "Delete" /\
  import_package sample_runtime (get_or_na (properties_of sample_event) "PackageImportName")
    = Returned ("1.35.0", "INSTALLED") /\
  exists data status,
    fst (invoke sample_runtime sample_event) = Returned data /\
    data !! "Status" = Some status /\
    (platform_machine sample_runtime = "aarch64" ->
       current_arch sample_runtime = "arm64" /\
       (status = "SUCCESS" <->
        four_match_on_arch "arm64" sample_runtime sample_event "1.35.0" "INSTALLED")) /\
    (platform_machine sample_runtime <> "aarch64" ->
       current_arch sample_runtime = platform_machine sample_runtime /\
       (status = "SUCCESS" <->
        four_match_on_arch (platform_machine sample_runtime) sample_runtime sample_event
          "1.35.0" "INSTALLED")).
Proof.
  split; [discriminate |]. split; [reflexivity |].
  apply (validator_canonical_architecture sample_runtime sample_event "1.35.0" "INSTALLED");
    [discriminate | reflexivity].
Defined.

(** C10. Every invocation of the validator, whatever its verdict, returns
    a dictionary whose TestPackage, TestPackageVersion, TestRuntime and
    TestArchitecture fields are the empty string: the returned dictionary is
    the initial one or the initial one with Status and Message updated, and
    the same dictionary is what is signalled. *)
Theorem validator_test_fields_always_empty (rt : runtime) (ev : event) :
  exists data,
    fst (invoke rt ev) = Returned data /\
    data !! "TestPackage" = Some "" /\
    data !! "TestPackageVersion" = Some "" /\
    data !! "TestRuntime" = Some "" /\
    data !! "TestArchitecture" = Some "" /\
    (data = initial_response \/ exists status message, data = reported status message) /\
    Forall (fun sig => cfnresponse.sig_data sig = data) (sent (snd (invoke rt ev))).
Proof.
  destruct (decide (RequestType ev = Some "Delete")) as [Hdel | Hreq].
  - rewrite (validator_invoke_delete rt ev Hdel). cbn [fst snd sent].
    exists initial_response. repeat (split; [reflexivity |]).
    split; [left; reflexivity |]. repeat constructor.
  - destruct (import_package rt (get_or_na (properties_of ev) "PackageImportName"))
      as [[installed_version package_status] | e] eqn:Himp.
    + rewrite (invoke_compared rt ev _ _ Hreq Himp). cbn [fst snd sent].
      eexists. split; [reflexivity |].
      repeat (split; [apply reported_test_field; unfold test_fields; set_solver |]).
      split; [right; eexists _, _; reflexivity |]. repeat constructor.
    + rewrite (invoke_raised rt ev _ Hreq Himp). cbn [fst snd sent].
      eexists. split; [reflexivity |].
      repeat (split; [apply reported_test_field; unfold test_fields; set_solver |]).
      split; [right; eexists _, _; reflexivity |]. repeat constructor.
Qed.

(** A package that cannot be imported fails the verdict, with the full
    diagnostic. *)
Example missing_package_fails :
  exists data,
    fst (invoke sample_runtime
           {| RequestType := Some "Create";
              ResourceProperties := Some (<["PackageImportName" := "requests"]> sample_properties) |})
      = Returned data /\
    data !! "Status" = Some "FAILED" /\
    data !! "Message" =
      Some ("Installation: Target: boto3, Current: NOT INSTALLED. "
            +:+ "Version: Target: 1.35.0, Current: NOT INSTALLED. "
            +:+ "Runtime: Target: python3.13, Current: python3.13. "
            +:+ "Architecture: Target: arm64, Current: arm64. ").
Proof. eexists. split; [reflexivity |]. split; vm_compute; reflexivity. Qed.

(** A target of arm64 on a machine reporting aarch64 passes. *)
Example arm64_target_matches_aarch64 :
  exists data,
    fst (invoke sample_runtime sample_event) = Returned data /\
    data !! "Status" = Some "SUCCESS" /\
    data !! "Message" =
      Some ("Installation: Target: boto3, Current: INSTALLED. "
            +:+ "Version: Target: 1.35.0, Current: 1.35.0. "
            +:+ "Runtime: Target: python3.13, Current: python3.13. "
            +:+ "Architecture: Target: arm64, Current: arm64. ").
Proof. eexists. split; [reflexivity |]. split; vm_compute; reflexivity. Qed.


(** ** Further properties of the validator *)



(** X5. A package that imports but has no [__version__] attribute is
    compared under the version text Version Not Found: it is validated only
    against a target version that reads exactly so. *)
Theorem validator_needs_version_attribute (rt : runtime) (ev : event) :
  RequestType ev <> Some "Delete" ->
  import_module rt (get_or_na (properties_of ev) "PackageImportName") = Imported None ->
  exists data,
    fst (invoke rt ev) = Returned data /\
    (data !! "Status" = Some "SUCCESS" <->
     get_or_na (properties_of ev) "PackageVersion" = "Version Not Found" /\
     current_runtime rt = get_or_na (properties_of ev) "Runtime" /\
     current_arch rt = get_or_na (properties_of ev) "Architecture") /\
    (get_or_na (properties_of ev) "PackageVersion" <> "Version Not Found" ->
     data !! "Status" = Some "FAILED").
Proof.
  intros Hreq Him.
  assert (import_package rt (get_or_na (properties_of ev) "PackageImportName")
          = Returned ("Version Not Found", "INSTALLED")) as Himp.
  { unfold import_package. rewrite Him. reflexivity. }
  rewrite (invoke_compared rt ev _ _ Hreq Himp). cbn [fst].
  eexists. split; [reflexivity |]. rewrite reported_status. split.
  - split.
    + intros [= H]. apply overall_status_success in H as (_ & H1 & H2 & H3). auto.
    + intros (H1 & H2 & H3). f_equal. apply overall_status_success. auto.
  - intros Hne. f_equal. apply overall_status_failed. intros (_ & H & _). auto.
Qed.


(** When importing the package raises anything but an ImportError, the
    comparison is abandoned: Status is FAILED, Message is the text of the
    exception alone, and FAILED is signalled with that text as reason. *)
Lemma invoke_unexpected_exception (rt : runtime) (ev : event) (e : exn) :
  RequestType ev <> Some "Delete" ->
  import_module rt (get_or_na (properties_of ev) "PackageImportName") = ImportRaises e ->
  is_import_error (class_of e) = false ->
  exists data,
    invoke rt ev =
      (Returned data,
       {| response_data := data;
          sent := [cfnresponse.Signal "FAILED" data (Some (str_of e))] |}) /\
    data !! "Status" = Some "FAILED" /\
    data !! "Message" = Some (str_of e).
Proof.
  intros Hreq Him Hcl.
  assert (import_package rt (get_or_na (properties_of ev) "PackageImportName") = Raised e)
    as Himp.
  { unfold import_package. rewrite Him, Hcl. reflexivity. }
  rewrite (invoke_raised rt ev _ Hreq Himp). eexists. split; [reflexivity |].
  split; [apply reported_status |]. unfold reported. apply lookup_insert_eq.
Qed.



Lemma run_settles it ev r :
  RequestType ev <> Some "Delete" ->
  import_behaviour_of it (import_name ev) = Settles r ->
  run it ev = finishes (invoke (settled it r) ev).
Proof.
  intros H Hr. unfold run. rewrite bool_decide_eq_false_2 by exact H.
  fold (import_name ev). rewrite Hr. reflexivity.
Qed.



(** A package that calls [sys.exit] when imported: nothing is signalled. *)
Example exit_during_import_signals_nothing :
  run exiting_interpreter sample_event = Escaped "SystemExit" "1" initial_state.
Proof. reflexivity. Qed.

(** X2. When importing the package raises an exception that derives from
    [Exception] but not from [ImportError], the comparison is abandoned:
    Status is FAILED, Message is the text of the exception alone, and FAILED
    is signalled once with that text as reason. *)
Theorem validator_reports_unexpected_exception
    (it : interpreter) (ev : event) (e : exn) :
  RequestType ev <> Some "Delete" ->
  import_behaviour_of it (import_name ev) = Settles (ImportRaises e) ->
  is_import_error (class_of e) = false ->
  exists data,
    run it ev =
      Finishes (Returned data)
        {| response_data := data;
           sent := [cfnresponse.Signal "FAILED" data (Some (str_of e))] |} /\
    data !! "Status" = Some "FAILED" /\
    data !! "Message" = Some (str_of e).
Proof.
  intros Hreq Hb Hcl. rewrite (run_settles it ev _ Hreq Hb). unfold finishes.
  destruct (invoke_unexpected_exception (settled it (ImportRaises e)) ev e Hreq eq_refl Hcl)
    as (data & Hi & Hs & Hm).
  exists data. rewrite Hi. repeat split; assumption.
Qed.

Lemma validator_reports_unexpected_exception_witness :
  exists data,
    run broken_interpreter sample_event =
      Finishes (Returned data)
        {| response_data := data;
           sent := [cfnresponse.Signal "FAILED" data
                      (Some "invalid syntax (__init__.py, line 1)")] |} /\
    data !! "Status" = Some "FAILED" /\
    data !! "Message" = Some "invalid syntax (__init__.py, line 1)".
Proof.
  apply (validator_reports_unexpected_exception broken_interpreter sample_event
           (Raise (External "SyntaxError") "invalid syntax (__init__.py, line 1)"));
    [discriminate | reflexivity | reflexivity].
Defined.




Lemma validator_needs_version_attribute_witness :
  exists data,
    fst (invoke unversioned_runtime sample_event) = Returned data /\
    (data !! "Status" = Some "SUCCESS" <->
     get_or_na (properties_of sample_event) "PackageVersion" = "Version Not Found" /\
     current_runtime unversioned_runtime = get_or_na (properties_of sample_event) "Runtime" /\
     current_arch unversioned_runtime = get_or_na (properties_of sample_event) "Architecture") /\
    (get_or_na (properties_of sample_event) "PackageVersion" <> "Version Not Found" ->
     data !! "Status" = Some "FAILED").
Proof.
  apply (validator_needs_version_attribute unversioned_runtime sample_event);
    [discriminate | reflexivity].
Defined.

End TestLambdaLayerProofs.

(** * Reasoning about handler computations *)

Module Frame.

Section Rules.
Context {S : Type} (R : S -> S -> Prop).
Hypothesis R_refl : forall s, R s s.
Hypothesis R_trans : forall s1 s2 s3, R s1 s2 -> R s2 s3 -> R s1 s3.

Lemma respects_ret {A} (a : A) : respects R (ret a).
Proof. intros s r s' [= _ <-]. apply R_refl. Qed.

Lemma respects_raise {A} (e : exn) : respects R (@raise S A e).
Proof. intros s r s' [= _ <-]. apply R_refl. Qed.

Lemma respects_lift {A} (x : result A) : respects R (lift x).
Proof. intros s r s' [= _ <-]. apply R_refl. Qed.

Lemma respects_get : respects R get.
Proof. intros s r s' [= _ <-]. apply R_refl. Qed.

Lemma respects_modify (f : S -> S) : (forall s, R s (f s)) -> respects R (modify f).
Proof. intros Hf s r s' [= _ <-]. apply Hf. Qed.

Lemma respects_bind {A B} (m : M S A) (k : A -> M S B) :
  respects R m -> (forall a, respects R (k a)) -> respects R (bind m k).
Proof.
  intros Hm Hk s r s'. unfold bind.
  destruct (m s) as [[a | e] s1] eqn:Em; intros H.
  - eapply R_trans; [eapply Hm, Em | eapply Hk, H].
  - injection H as _ <-. eapply Hm, Em.
Qed.

Lemma respects_try_except {A} (m : M S A) (h : exn -> M S A) :
  respects R m -> (forall e, respects R (h e)) -> respects R (try_except m h).
Proof.
  intros Hm Hh s r s'. unfold try_except.
  destruct (m s) as [[a | e] s1] eqn:Em; intros H.
  - injection H as _ <-. eapply Hm, Em.
  - eapply R_trans; [eapply Hm, Em | eapply Hh, H].
Qed.

Lemma respects_try_finally {A} (m : M S A) (f : M S unit) :
  respects R m -> respects R f -> respects R (try_finally m f).
Proof.
  intros Hm Hf s r s'. unfold try_finally.
  destruct (m s) as [r1 s1] eqn:Em.
  destruct (f s1) as [[[] | e] s2] eqn:Ef; intros [= _ <-];
    (eapply R_trans; [eapply Hm, Em | eapply Hf, Ef]).
Qed.

Lemma respects_for_each {A} (xs : list A) (body : A -> M S unit) :
  (forall x, respects R (body x)) -> respects R (for_each xs body).
Proof.
  intros Hb. induction xs as [| x xs IH]; simpl.
  - apply respects_ret.
  - apply respects_bind; [apply Hb | intros _; exact IH].
Qed.

Lemma respects_if {A} (b : bool) (m1 m2 : M S A) :
  respects R m1 -> respects R m2 -> respects R (if b then m1 else m2).
Proof. destruct b; trivial. Qed.
End Rules.

(** Outcome of a [finally] block: when the cleanup returns, the outcome is
    that of the protected computation. *)
Lemma try_finally_inv {S A} (m : M S A) (f : M S unit) s r s' :
  try_finally m f s = (r, s') ->
  exists r1 s1 r2, m s = (r1, s1) /\ f s1 = (r2, s') /\
    match r2 with Returned _ => r = r1 | Raised e => r = Raised e end.
Proof.
  unfold try_finally. destruct (m s) as [r1 s1].
  destruct (f s1) as [[[] | e] s2] eqn:Ef; intros [= <- <-];
    eexists _, _, _; (split; [reflexivity |]); (split; [exact Ef |]); reflexivity.
Qed.

Lemma bind_inv {S A B} (m : M S A) (k : A -> M S B) s r s' :
  bind m k s = (r, s') ->
  (exists a s1, m s = (Returned a, s1) /\ k a s1 = (r, s')) \/
  (exists e, m s = (Raised e, s') /\ r = Raised e).
Proof.
  unfold bind. destruct (m s) as [[a | e] s1]; intros H.
  - left. eauto.
  - right. injection H as <- <-. eauto.
Qed.

End Frame.

(** * Properties of the build orchestrator *)

Module CreateLambdaLayerProofs.
Import CreateLambdaLayer BuilderSpec Frame.

Lemma quiet_refl s : quiet s s.
Proof. split; [reflexivity |]. exists []. rewrite app_nil_r. split; [reflexivity | constructor]. Qed.

Lemma quiet_trans s1 s2 s3 : quiet s1 s2 -> quiet s2 s3 -> quiet s1 s3.
Proof.
  intros [Hr1 (l1 & He1 & Hl1)] [Hr2 (l2 & He2 & Hl2)]. split; [congruence |].
  exists (l1 ++ l2). rewrite He2, He1, app_assoc. split; [reflexivity |].
  apply Forall_app; split; assumption.
Qed.

Lemma quiet_emit e : local_effect e -> respects quiet (emit e).
Proof.
  intros He. apply respects_modify. intros s. split; [reflexivity |].
  exists [e]. split; [reflexivity |]. constructor; [exact He | constructor].
Qed.

Lemma quiet_set_fs f : respects quiet (set_fs f).
Proof. apply respects_modify. intros s. apply (quiet_refl {| response_data := _ |}). Qed.

Ltac quiet_step :=
  first
    [ apply (respects_bind quiet quiet_trans)
    | apply (respects_try_except quiet quiet_trans)
    | apply (respects_try_finally quiet quiet_trans)
    | apply (respects_for_each quiet quiet_refl quiet_trans)
    | apply (respects_ret quiet quiet_refl)
    | apply (respects_raise quiet quiet_refl)
    | apply (respects_get quiet quiet_refl)
    | apply quiet_set_fs
    | apply quiet_emit; exact I
    | match goal with
      | |- respects _ (match ?x with _ => _ end) => destruct x
      | |- forall _, _ => intros
      end ].

Ltac quiet_auto := repeat quiet_step.

(** Case analysis on the next [os.path.exists] test of the goal. *)
Ltac case_exists :=
  match goal with
  | |- context [bool_decide (?p ∈ ?X)] =>
      destruct (decide (p ∈ X));
      [ rewrite (bool_decide_eq_true_2 (p ∈ X)) by assumption
      | rewrite (bool_decide_eq_false_2 (p ∈ X)) by assumption ]
  end.

Lemma quiet_path_exists p : respects quiet (path_exists p).
Proof. unfold path_exists. quiet_auto. Qed.

Lemma quiet_rmtree p : respects quiet (rmtree p).
Proof. unfold rmtree. quiet_auto; apply quiet_path_exists. Qed.

Lemma quiet_os_remove p : respects quiet (os_remove p).
Proof. unfold os_remove. quiet_auto; apply quiet_path_exists. Qed.

Lemma quiet_run_step e st outputs : local_effect e -> respects quiet (run_step e st outputs).
Proof. intros He. unfold run_step. quiet_auto. apply quiet_emit, He. Qed.

Lemma quiet_move w src dst : respects quiet (move w src dst).
Proof. unfold move. quiet_auto; apply quiet_path_exists. Qed.

Lemma quiet_remove_temp_dirs : respects quiet remove_temp_dirs.
Proof.
  unfold remove_temp_dirs, remove_if_exists.
  quiet_auto; first [apply quiet_path_exists | apply quiet_rmtree].
Qed.

Lemma quiet_get_latest_package_version w package_name :
  respects quiet (get_latest_package_version w package_name).
Proof. unfold get_latest_package_version. quiet_auto. Qed.

Lemma quiet_create_layer_package w package_name package_version runtime_version :
  respects quiet (create_layer_package w package_name package_version runtime_version).
Proof.
  unfold create_layer_package. quiet_auto;
    first [ apply quiet_path_exists | apply quiet_remove_temp_dirs | apply quiet_os_remove
          | apply quiet_move | apply quiet_run_step; exact I ].
Qed.

(** The upload of lines 170-177: the dictionary is untouched, the archive
    is gone afterwards whatever the outcome, and the outcome is the store's. *)
Lemma upload_spec w zip_file bucket_name s3_key s r s' :
  upload w zip_file bucket_name s3_key s = (r, s') ->
  response_data s' = response_data s /\
  fs s' = fs s ∖ {[zip_file]} /\
  (exists l, effects s' = effects s ++ UploadFile zip_file bucket_name s3_key :: l
             /\ Forall local_effect l) /\
  match r with
  | Returned _ => s3_upload_file w zip_file bucket_name s3_key = None
  | Raised e => s3_upload_file w zip_file bucket_name s3_key = Some e
  end.
Proof.
  unfold upload, try_finally, bind, emit, modify, path_exists, os_remove, path_exists,
    bind, get, ret, raise, emit, set_fs, modify.
  destruct (s3_upload_file w zip_file bucket_name s3_key) as [e |] eqn:Eu;
    repeat (cbn in *; case_exists); try contradiction;
    intros [= <- <-]; cbn; (split; [reflexivity |]); (split; [set_solver |]);
    (split; [| reflexivity]).
  - exists [Remove zip_file]. rewrite <- app_assoc. split; [reflexivity |]. repeat constructor.
  - exists []. split; [reflexivity | constructor].
  - exists [Remove zip_file]. rewrite <- app_assoc. split; [reflexivity |]. repeat constructor.
  - exists []. split; [reflexivity | constructor].
Qed.

Lemma build_and_publish_cases w ev s r s' :
  build_and_publish w ev s = (r, s') ->
  match r with
  | Raised _ => failed_run ev s s'
  | Returned _ => published_run w ev s s'
  end.
Proof.
  assert (forall e, (Raised e : result unit, s) = (r, s') ->
            match r with Raised _ => failed_run ev s s' | Returned _ => published_run w ev s s' end)
    as Hstop.
  { intros e [= <- <-]. split; [reflexivity |]. exists []. rewrite app_nil_r.
    split; [reflexivity | constructor]. }
  unfold build_and_publish.
  destruct (negb (bool_decide (missing_props _ = []))); [apply Hstop |].
  destruct (not_supported _); [apply Hstop |].
  destruct (properties_of ev !! "BucketName") as [bucket_name |] eqn:Eb; [| apply Hstop].
  destruct (properties_of ev !! "PackageName") as [package_name |] eqn:En; [| apply Hstop].
  destruct (properties_of ev !! "Runtime") as [runtime |] eqn:Er; [| apply Hstop].
  destruct (properties_of ev !! "Architecture") as [architecture |] eqn:Ea; [| apply Hstop].
  clear Hstop. intros H.
  apply bind_inv in H as [(package_version & s1 & Hv & H) | (e & Hv & ->)].
  2: { apply quiet_get_latest_package_version in Hv as [Hr (l & He & Hl)].
       split; [exact Hr |]. exists l. split; [exact He |].
       eapply Forall_impl; [exact Hl | intros x Hx; left; exact Hx]. }
  apply quiet_get_latest_package_version in Hv as [Hr1 (l1 & He1 & Hl1)].
  apply bind_inv in H as [(zip_file & s2 & Hz & H) | (e & Hz & ->)].
  2: { apply quiet_create_layer_package in Hz as [Hr2 (l2 & He2 & Hl2)].
       split; [congruence |]. exists (l1 ++ l2). rewrite He2, He1, app_assoc.
       split; [reflexivity |]. apply Forall_app; split;
         (eapply Forall_impl; [eassumption | intros x Hx; left; exact Hx]). }
  apply quiet_create_layer_package in Hz as [Hr2 (l2 & He2 & Hl2)].
  apply bind_inv in H as [([] & s3 & Hu & H) | (e & Hu & ->)].
  2: { apply upload_spec in Hu as (Hr3 & _ & (l3 & He3 & Hl3) & _).
       split; [congruence |].
       exists ((l1 ++ l2) ++ UploadFile zip_file bucket_name
                 (s3_key_of runtime architecture package_name) :: l3).
       rewrite He3, He2, He1, !app_assoc. split; [reflexivity |].
       apply Forall_app; split; [apply Forall_app; split |];
         try (eapply Forall_impl; [eassumption | intros x Hx; left; exact Hx]).
       constructor; [| eapply Forall_impl; [eassumption | intros x Hx; left; exact Hx]].
       right. exists zip_file, bucket_name, package_name, runtime, architecture. tauto. }
  apply upload_spec in Hu as (Hr3 & Hfs & (l3 & He3 & Hl3) & Hok).
  cbn in H. injection H as <- <-. cbn.
  exists bucket_name, package_name, runtime, architecture, package_version, zip_file,
    (l1 ++ l2), l3.
  repeat (split; [first [assumption | reflexivity] |]).
  split; [rewrite Hr3, Hr2, Hr1; reflexivity |].
  split; [rewrite He3, He2, He1, <- !app_assoc; reflexivity |].
  split; [apply Forall_app; split; assumption |].
  split; [assumption |]. split; [assumption |]. rewrite Hfs. set_solver.
Qed.

Lemma builder_invoke_delete w scratch ev :
  RequestType ev = Some "Delete" ->
  invoke w scratch ev =
    (Returned initial_response,
     {| response_data := initial_response; fs := scratch;
        effects := [Send (cfnresponse.Signal "SUCCESS" initial_response None)] |}).
Proof.
  intros Hdel. unfold invoke, lambda_handler.
  rewrite bool_decide_eq_true_2 by exact Hdel. reflexivity.
Qed.

Lemma invoke_build w scratch ev r s' :
  RequestType ev <> Some "Delete" ->
  build_and_publish w ev (initial_state scratch) = (r, s') ->
  invoke w scratch ev =
    match r with
    | Returned _ => (Returned (response_data s'), s')
    | Raised e => (Returned (response_data s'), after_failure e s')
    end.
Proof.
  intros Hreq Hb. unfold invoke, lambda_handler.
  rewrite bool_decide_eq_false_2 by exact Hreq.
  unfold bind at 1. unfold try_except. rewrite Hb.
  destruct r as [[] | e]; reflexivity.
Qed.

Lemma invoke_effects w scratch ev :
  Forall (invocation_effect ev) (effects (snd (invoke w scratch ev))).
Proof.
  destruct (decide (RequestType ev = Some "Delete")) as [Hdel | Hreq].
  { rewrite (builder_invoke_delete _ _ _ Hdel). cbn. constructor; [| constructor].
    right; right. eexists; reflexivity. }
  destruct (build_and_publish w ev (initial_state scratch)) as [r s'] eqn:Hb.
  rewrite (invoke_build _ _ _ _ _ Hreq Hb).
  apply build_and_publish_cases in Hb. destruct r as [[] | e].
  - destruct Hb as (b & n & rt & a & v & z & l1 & l2 & Hb' & Hn & Hrt & Ha & _ & He & Hl1 & Hl2 & _).
    cbn [snd]. rewrite He. cbn [initial_state effects app].
    apply Forall_app; split.
    { eapply Forall_impl; [exact Hl1 | intros x Hx; left; exact Hx]. }
    constructor.
    { right; left. exists z, b, n, rt, a. tauto. }
    apply Forall_app; split.
    { eapply Forall_impl; [exact Hl2 | intros x Hx; left; exact Hx]. }
    constructor; [| constructor]. right; right. eexists; reflexivity.
  - destruct Hb as [_ (l & He & Hl)]. cbn [snd after_failure effects].
    rewrite He. cbn [initial_state effects app].
    apply Forall_app; split.
    { eapply Forall_impl; [exact Hl |]. intros x [Hx | Hx]; [left | right; left]; exact Hx. }
    constructor; [| constructor]. right; right. eexists; reflexivity.
Qed.

Lemma append_assoc (s1 s2 s3 : string) : (s1 +:+ s2) +:+ s3 = s1 +:+ s2 +:+ s3.
Proof.
  induction s1 as [| c s1 IH]; [reflexivity |].
  change (String c ((s1 +:+ s2) +:+ s3) = String c (s1 +:+ s2 +:+ s3)).
  rewrite IH. reflexivity.
Qed.

Lemma truthy_false v : truthy v = false <-> v = None \/ v = Some "".
Proof.
  destruct v as [s |]; cbn.
  - destruct (String.eqb_spec s ""); cbn; split; intros H; try discriminate; auto.
    + right. congruence.
    + destruct H as [H | H]; [discriminate | congruence].
  - tauto.
Qed.

Lemma missing_props_absent_or_empty (properties : gmap string string) :
  missing_props
    [("BucketName", properties !! "BucketName"); ("PackageName", properties !! "PackageName");
     ("Runtime", properties !! "Runtime"); ("Architecture", properties !! "Architecture")]
  = absent_or_empty properties.
Proof.
  unfold missing_props, absent_or_empty, required_properties.
  rewrite !filter_cons, !filter_nil. cbn [List.filter snd].
  repeat match goal with
  | |- context [decide (properties !! ?k = None \/ _)] =>
      destruct (decide (properties !! k = None \/ properties !! k = Some "")) as [H | H];
      [ pose proof (proj2 (truthy_false _) H) as Ht
      | assert (truthy (properties !! k) = true) as Ht
          by (destruct (truthy (properties !! k)) eqn:E;
              [reflexivity | apply truthy_false in E; contradiction]) ];
      rewrite Ht; clear H Ht
  end; reflexivity.
Qed.

Lemma build_missing w ev s :
  absent_or_empty (properties_of ev) <> [] ->
  build_and_publish w ev s =
    (Raised (Raise ValueError
               ("Missing required properties: "
                +:+ join ", " (absent_or_empty (properties_of ev)))), s).
Proof.
  intros Hm. unfold build_and_publish. rewrite missing_props_absent_or_empty.
  rewrite bool_decide_eq_false_2 by exact Hm. reflexivity.
Qed.

Lemma not_supported_iff package_name :
  not_supported (Some package_name) = true <-> package_name ∉ SUPPORTED_PACKAGES.
Proof.
  unfold not_supported. rewrite negb_true_iff, <- not_true_iff_false, existsb_exists.
  split.
  - intros H Hin. apply H. exists package_name. split.
    + apply list_elem_of_In, Hin.
    + apply String.eqb_refl.
  - intros H (x & Hin & Heq). apply String.eqb_eq in Heq as ->.
    apply H, list_elem_of_In, Hin.
Qed.

Lemma build_unsupported w ev s package_name :
  absent_or_empty (properties_of ev) = [] ->
  properties_of ev !! "PackageName" = Some package_name ->
  package_name ∉ SUPPORTED_PACKAGES ->
  build_and_publish w ev s =
    (Raised (Raise ValueError
               ("Package '" +:+ package_name +:+ "' is not supported. Supported packages: "
                +:+ allow_list_text +:+ String "010" "")), s).
Proof.
  intros Hm Hn Hs. unfold build_and_publish. rewrite missing_props_absent_or_empty.
  rewrite bool_decide_eq_true_2 by exact Hm. rewrite Hn.
  rewrite (proj2 (not_supported_iff package_name) Hs). reflexivity.
Qed.

Lemma absent_or_empty_spec (properties : gmap string string) k :
  k ∈ absent_or_empty properties <->
  k ∈ required_properties /\ (properties !! k = None \/ properties !! k = Some "").
Proof. unfold absent_or_empty. rewrite list_elem_of_filter. tauto. Qed.

Lemma allow_list_enumerated :
  Forall (fun p => exists pre post, allow_list_text = pre +:+ p +:+ post) SUPPORTED_PACKAGES.
Proof.
  unfold SUPPORTED_PACKAGES, allow_list_text. repeat constructor.
  - exists "aws-lambda-powertools, aws-xray-sdk, ", ", requests, urllib3". reflexivity.
  - exists "aws-lambda-powertools, aws-xray-sdk, boto3, ", ", urllib3". reflexivity.
  - exists "aws-lambda-powertools, aws-xray-sdk, boto3, requests, ", "". reflexivity.
  - exists "", ", aws-xray-sdk, boto3, requests, urllib3". reflexivity.
  - exists "aws-lambda-powertools, ", ", boto3, requests, urllib3". reflexivity.
Qed.

(** C7. Validation is ordered: when any of BucketName, PackageName, Runtime
    or Architecture is absent or empty, the invocation fails, before any
    side effect and whatever the package name, with one error that lists
    every such property; only when none is missing is the allow-list
    consulted, and a name outside it fails, again before any side effect,
    with an error that enumerates the whole allow-list. *)
Theorem validation_is_ordered_and_fails_fast (w : world) (scratch : gset string) (ev : event) :
  RequestType ev <> Some "Delete" ->
  (absent_or_empty (properties_of ev) <> [] ->
   invoke w scratch ev =
     failed_with scratch
       ("Missing required properties: " +:+ join ", " (absent_or_empty (properties_of ev)))) /\
  (forall k, k ∈ absent_or_empty (properties_of ev) <->
             k ∈ required_properties /\
             (properties_of ev !! k = None \/ properties_of ev !! k = Some "")) /\
  (absent_or_empty (properties_of ev) = [] ->
   forall package_name,
     properties_of ev !! "PackageName" = Some package_name ->
     package_name ∉ SUPPORTED_PACKAGES ->
     invoke w scratch ev =
       failed_with scratch
         ("Package '" +:+ package_name +:+ "' is not supported. Supported packages: "
          +:+ allow_list_text +:+ String "010" "")) /\
  Forall (fun p => exists pre post, allow_list_text = pre +:+ p +:+ post) SUPPORTED_PACKAGES.
Proof.
  intros Hreq. split; [| split; [| split]].
  - intros Hm.
    rewrite (invoke_build w scratch ev _ _ Hreq (build_missing w ev _ Hm)). reflexivity.
  - apply absent_or_empty_spec.
  - intros Hm package_name Hn Hs.
    rewrite (invoke_build w scratch ev _ _ Hreq (build_unsupported w ev _ _ Hm Hn Hs)).
    reflexivity.
  - apply allow_list_enumerated.
Qed.

Lemma validation_is_ordered_and_fails_fast_witness :
  RequestType incomplete_event <> Some "Delete" /\
  invoke (healthy_world "1.35.0") ∅ incomplete_event =
    failed_with ∅ "Missing required properties: BucketName, Architecture".
Proof.
  split; [discriminate |].
  apply (validation_is_ordered_and_fails_fast (healthy_world "1.35.0") ∅ incomplete_event);
    [discriminate |].
  vm_compute. discriminate.
Defined.

(** What an invocation returns: the state's dictionary, which is the initial
    one unless the whole pipeline ran. *)
Lemma invoke_result w scratch ev :
  exists data st,
    invoke w scratch ev = (Returned data, st) /\ response_data st = data /\
    (data = initial_response \/ published_run w ev (initial_state scratch) st).
Proof.
  destruct (decide (RequestType ev = Some "Delete")) as [Hdel | Hreq].
  { rewrite (builder_invoke_delete _ _ _ Hdel). eexists _, _. split; [reflexivity |].
    split; [reflexivity | left; reflexivity]. }
  destruct (build_and_publish w ev (initial_state scratch)) as [r s'] eqn:Hb.
  rewrite (invoke_build _ _ _ _ _ Hreq Hb).
  apply build_and_publish_cases in Hb. destruct r as [[] | e].
  - eexists _, _. split; [reflexivity |]. split; [reflexivity | right; exact Hb].
  - destruct Hb as [Hr _]. eexists _, _. split; [reflexivity |].
    split; [reflexivity | left; exact Hr].
Qed.

Lemma initial_fields_empty : Forall (fun k => initial_response !! k = Some "") result_fields.
Proof. repeat constructor. Qed.

Lemma elem_of_uploaded_keys key l :
  key ∈ uploaded_keys l <-> exists zip_file bucket_name, UploadFile zip_file bucket_name key ∈ l.
Proof.
  unfold uploaded_keys. rewrite list_elem_of_omap. split.
  - intros (x & Hin & Hx). destruct x; try discriminate. injection Hx as ->. eauto.
  - intros (z & b & Hin). eexists. split; [exact Hin | reflexivity].
Qed.

Lemma uploaded_key_expected w scratch ev key :
  key ∈ uploaded_keys (effects (snd (invoke w scratch ev))) ->
  exists runtime architecture package_name,
    properties_of ev !! "Runtime" = Some runtime /\
    properties_of ev !! "Architecture" = Some architecture /\
    properties_of ev !! "PackageName" = Some package_name /\
    key = s3_key_of runtime architecture package_name.
Proof.
  rewrite elem_of_uploaded_keys. intros (z & b & Hin).
  pose proof (invoke_effects w scratch ev) as Hall.
  rewrite Forall_forall in Hall. apply Hall in Hin as [[] | [Hx | [sig Hx]]]; [| discriminate].
  destruct Hx as (z' & b' & n & rt & a & _ & Hn & Hrt & Ha & [= _ _ ->]).
  exists rt, a, n. tauto.
Qed.

(** The S3Key field of the result: empty, or the key of the event. *)
Lemma result_key w scratch ev :
  exists data,
    fst (invoke w scratch ev) = Returned data /\
    (data !! "S3Key" = Some "" \/
     exists runtime architecture package_name,
       properties_of ev !! "Runtime" = Some runtime /\
       properties_of ev !! "Architecture" = Some architecture /\
       properties_of ev !! "PackageName" = Some package_name /\
       data !! "S3Key" = Some (s3_key_of runtime architecture package_name)).
Proof.
  destruct (invoke_result w scratch ev) as (data & st & Hi & Hd & [-> | Hp]).
  - rewrite Hi. exists initial_response. split; [reflexivity | left; reflexivity].
  - rewrite Hi. exists data. split; [reflexivity |]. right.
    destruct Hp as (b & n & rt & a & v & z & l1 & l2 & _ & Hn & Hrt & Ha & Hr & _).
    exists rt, a, n. repeat (split; [assumption |]).
    rewrite <- Hd, Hr. reflexivity.
Qed.

(** C2. When any step of a build invocation raises, the handler signals
    FAILED with the stringified cause and returns the result record with
    every field empty; a result with a populated field is only returned
    after an upload that the content store accepted, and is then signalled
    with SUCCESS. *)
Theorem failure_reports_empty_result (w : world) (scratch : gset string) (ev : event) :
  RequestType ev <> Some "Delete" ->
  exists data st,
    invoke w scratch ev = (Returned data, st) /\
    (forall e s',
       build_and_publish w ev (initial_state scratch) = (Raised e, s') ->
       data = initial_response /\
       Forall (fun k => data !! k = Some "") result_fields /\
       st = after_failure e s' /\
       response_data s' = initial_response) /\
    (data <> initial_response ->
     exists zip_file bucket_name s3_key before after,
       effects st = before ++ UploadFile zip_file bucket_name s3_key :: after
                      ++ [Send (cfnresponse.Signal "SUCCESS" data None)] /\
       s3_upload_file w zip_file bucket_name s3_key = None /\
       Forall local_effect before /\ Forall local_effect after).
Proof.
  intros Hreq.
  destruct (invoke_result w scratch ev) as (data & st & Hi & Hd & Hcase).
  exists data, st. split; [exact Hi |]. split.
  - intros e s' Hb.
    rewrite (invoke_build _ _ _ _ _ Hreq Hb) in Hi. injection Hi as <- <-.
    apply build_and_publish_cases in Hb as [Hr _]. cbn in Hr.
    rewrite Hr. repeat split; try reflexivity. apply initial_fields_empty.
  - intros Hne. destruct Hcase as [-> | Hp]; [contradiction |].
    destruct Hp as (b & n & rt & a & v & z & l1 & l2 & _ & _ & _ & _ & _ & He & Hl1 & Hl2 & Hok & _).
    exists z, b, (s3_key_of rt a n), l1, l2. rewrite He, Hd. cbn [initial_state effects app].
    repeat split; assumption.
Qed.

Lemma failure_reports_empty_result_witness :
  RequestType (create_event "layer-bucket" "boto3") <> Some "Delete" /\
  exists data st,
    invoke upload_fails_world ∅ (create_event "layer-bucket" "boto3") = (Returned data, st) /\
    (forall e s',
       build_and_publish upload_fails_world (create_event "layer-bucket" "boto3")
         (initial_state ∅) = (Raised e, s') ->
       data = initial_response /\
       Forall (fun k => data !! k = Some "") result_fields /\
       st = after_failure e s' /\
       response_data s' = initial_response) /\
    (data <> initial_response ->
     exists zip_file bucket_name s3_key before after,
       effects st = before ++ UploadFile zip_file bucket_name s3_key :: after
                      ++ [Send (cfnresponse.Signal "SUCCESS" data None)] /\
       s3_upload_file upload_fails_world zip_file bucket_name s3_key = None /\
       Forall local_effect before /\ Forall local_effect after).
Proof.
  split; [discriminate |].
  apply (failure_reports_empty_result upload_fails_world ∅ (create_event "layer-bucket" "boto3")).
  discriminate.
Defined.

(** The upload fails: the archive was built and resolved at 1.35.0, yet
    nothing of it shows in the result. *)
Example upload_failure_reports_nothing :
  fst (invoke upload_fails_world ∅ (create_event "layer-bucket" "boto3"))
    = Returned initial_response /\
  last (effects (snd (invoke upload_fails_world ∅ (create_event "layer-bucket" "boto3"))))
    = Some (Send (cfnresponse.Signal "FAILED" initial_response
                    (Some "Lambda Layer creation failed: Access Denied"))).
Proof. split; vm_compute; reflexivity. Qed.

(** C3, as the code has it. Every key under which the orchestrator uploads,
    and the S3Key it reports when it reports one, is the runtime with its
    dots removed, a hyphen, the architecture, a hyphen, the package name,
    then [.zip]. *)
Theorem store_key_is_hyphenated
    (w : world) (scratch : gset string) (ev : event) (key : string) :
  key ∈ uploaded_keys (effects (snd (invoke w scratch ev))) ->
  exists runtime architecture package_name data,
    properties_of ev !! "Runtime" = Some runtime /\
    properties_of ev !! "Architecture" = Some architecture /\
    properties_of ev !! "PackageName" = Some package_name /\
    key = replace "." "" runtime +:+ "-" +:+ architecture +:+ "-" +:+ package_name +:+ ".zip" /\
    fst (invoke w scratch ev) = Returned data /\
    (data !! "S3Key" = Some "" \/ data !! "S3Key" = Some key).
Proof.
  intros Hk. apply uploaded_key_expected in Hk as (rt & a & n & Hrt & Ha & Hn & ->).
  destruct (result_key w scratch ev) as (data & Hd & Hkey).
  exists rt, a, n, data. repeat (split; [assumption |]).
  split.
  { unfold s3_key_of, layer_name_of. rewrite !append_assoc. reflexivity. }
  split; [exact Hd |].
  destruct Hkey as [He | (rt' & a' & n' & Hrt' & Ha' & Hn' & Hs)]; [left; exact He |].
  right. rewrite Hs. congruence.
Qed.

Lemma store_key_is_hyphenated_witness :
  "python313-arm64-boto3.zip"
    ∈ uploaded_keys (effects (snd (invoke (healthy_world "1.35.0") ∅
                                      (create_event "layer-bucket" "boto3")))) /\
  exists runtime architecture package_name data,
    properties_of (create_event "layer-bucket" "boto3") !! "Runtime" = Some runtime /\
    properties_of (create_event "layer-bucket" "boto3") !! "Architecture" = Some architecture /\
    properties_of (create_event "layer-bucket" "boto3") !! "PackageName" = Some package_name /\
    "python313-arm64-boto3.zip"
      = replace "." "" runtime +:+ "-" +:+ architecture +:+ "-" +:+ package_name +:+ ".zip" /\
    fst (invoke (healthy_world "1.35.0") ∅ (create_event "layer-bucket" "boto3"))
      = Returned data /\
    (data !! "S3Key" = Some "" \/ data !! "S3Key" = Some "python313-arm64-boto3.zip").
Proof.
  assert ("python313-arm64-boto3.zip"
            ∈ uploaded_keys (effects (snd (invoke (healthy_world "1.35.0") ∅
                                              (create_event "layer-bucket" "boto3"))))) as Hk.
  { vm_compute. apply list_elem_of_here. }
  split; [exact Hk |].
  exact (store_key_is_hyphenated (healthy_world "1.35.0") ∅
           (create_event "layer-bucket" "boto3") "python313-arm64-boto3.zip" Hk).
Defined.

(** C3 as stated fails: for python3.13, arm64 and boto3 the orchestrator
    uploads under a key with hyphens between the components, which is not
    the delimiter-free concatenation. *)
Lemma store_key_has_delimiters :
  uploaded_keys (effects (snd (invoke (healthy_world "1.35.0") ∅
                                 (create_event "layer-bucket" "boto3"))))
    = ["python313-arm64-boto3.zip"] /\
  spec_store_key "python3.13" "arm64" "boto3" = "python313arm64boto3.zip" /\
  s3_key_of "python3.13" "arm64" "boto3" <> spec_store_key "python3.13" "arm64" "boto3".
Proof. split; [| split]; vm_compute; [reflexivity | reflexivity | discriminate]. Qed.

(** C4. The key depends on the event's Runtime, Architecture and PackageName
    alone: two invocations that agree on the three, in whatever world, on
    whatever scratch state and with whatever other properties, upload under
    the same key and, when both report a key, report the same one. *)
Theorem store_key_is_deterministic
    (w1 w2 : world) (scratch1 scratch2 : gset string) (ev1 ev2 : event) :
  properties_of ev1 !! "Runtime" = properties_of ev2 !! "Runtime" ->
  properties_of ev1 !! "Architecture" = properties_of ev2 !! "Architecture" ->
  properties_of ev1 !! "PackageName" = properties_of ev2 !! "PackageName" ->
  (forall key1 key2,
     key1 ∈ uploaded_keys (effects (snd (invoke w1 scratch1 ev1))) ->
     key2 ∈ uploaded_keys (effects (snd (invoke w2 scratch2 ev2))) ->
     key1 = key2) /\
  (exists data1 data2,
     fst (invoke w1 scratch1 ev1) = Returned data1 /\
     fst (invoke w2 scratch2 ev2) = Returned data2 /\
     (data1 !! "S3Key" = Some "" \/ data2 !! "S3Key" = Some "" \/
      data1 !! "S3Key" = data2 !! "S3Key")).
Proof.
  intros Hrt Ha Hn. split.
  - intros key1 key2 H1 H2.
    apply uploaded_key_expected in H1 as (rt1 & a1 & n1 & Hrt1 & Ha1 & Hn1 & ->).
    apply uploaded_key_expected in H2 as (rt2 & a2 & n2 & Hrt2 & Ha2 & Hn2 & ->).
    congruence.
  - destruct (result_key w1 scratch1 ev1) as (data1 & Hd1 & Hk1).
    destruct (result_key w2 scratch2 ev2) as (data2 & Hd2 & Hk2).
    exists data1, data2. split; [exact Hd1 |]. split; [exact Hd2 |].
    destruct Hk1 as [He | (rt1 & a1 & n1 & Hrt1 & Ha1 & Hn1 & Hs1)]; [left; exact He |].
    destruct Hk2 as [He | (rt2 & a2 & n2 & Hrt2 & Ha2 & Hn2 & Hs2)]; [right; left; exact He |].
    right; right. rewrite Hs1, Hs2. congruence.
Qed.

Lemma store_key_is_deterministic_witness :
  (forall key1 key2,
     key1 ∈ uploaded_keys (effects (snd (invoke (healthy_world "1.35.0") ∅
                                           (create_event "layer-bucket" "boto3")))) ->
     key2 ∈ uploaded_keys (effects (snd (invoke (healthy_world "1.36.2") {[ "/tmp/stale" ]}
                                           (create_event "other-bucket" "boto3")))) ->
     key1 = key2) /\
  (exists data1 data2,
     fst (invoke (healthy_world "1.35.0") ∅ (create_event "layer-bucket" "boto3"))
       = Returned data1 /\
     fst (invoke (healthy_world "1.36.2") {[ "/tmp/stale" ]} (create_event "other-bucket" "boto3"))
       = Returned data2 /\
     (data1 !! "S3Key" = Some "" \/ data2 !! "S3Key" = Some "" \/
      data1 !! "S3Key" = data2 !! "S3Key")).
Proof.
  apply (store_key_is_deterministic (healthy_world "1.35.0") (healthy_world "1.36.2")
           ∅ {[ "/tmp/stale" ]}
           (create_event "layer-bucket" "boto3") (create_event "other-bucket" "boto3"));
    reflexivity.
Defined.

(** Two builds of boto3 for python3.13 on arm64, at different versions and
    into different buckets, publish under one key. *)
Example rebuild_overwrites_same_key :
  uploaded_keys (effects (snd (invoke (healthy_world "1.35.0") ∅
                                 (create_event "layer-bucket" "boto3"))))
  = uploaded_keys (effects (snd (invoke (healthy_world "1.36.2") {[ "/tmp/stale" ]}
                                   (create_event "other-bucket" "boto3")))).
Proof. vm_compute. reflexivity. Qed.

Lemma import_name_length name : String.length (import_name_of name) = String.length name.
Proof.
  unfold import_name_of. induction name as [| c name IH]; [reflexivity |].
  cbn [replace].
  destruct (Ascii.eqb c "-");
    (transitivity (S (String.length (replace "-" "_" name)));
     [reflexivity | rewrite IH; reflexivity]).
Qed.

Lemma import_name_get name i :
  String.get i (import_name_of name) = spec_import_char <$> String.get i name.
Proof.
  unfold import_name_of. revert i. induction name as [| c name IH]; intros i; [reflexivity |].
  cbn [replace]. destruct i as [| i].
  - cbn [String.get fmap option_fmap option_map]. unfold spec_import_char.
    destruct (Ascii.eqb c "-"); reflexivity.
  - transitivity (String.get i (replace "-" "_" name)); [| apply IH].
    destruct (Ascii.eqb c "-"); reflexivity.
Qed.

Lemma import_name_without_hyphen name :
  contains_char "-" name = false -> import_name_of name = name.
Proof.
  unfold import_name_of. induction name as [| c name IH]; [reflexivity |].
  cbn [contains_char replace]. rewrite orb_false_iff, Ascii.eqb_sym. intros [-> Hn].
  rewrite (IH Hn). reflexivity.
Qed.

(** C6. The import name is the package name with every hyphen replaced by
    an underscore and every other character kept, position by position;
    aws-lambda-powertools gives aws_lambda_powertools, a name without a
    hyphen is unchanged, and a result that the orchestrator populates
    carries the import name so derived from the event's PackageName. *)
Theorem import_name_replaces_hyphens :
  (forall name i,
     String.length (import_name_of name) = String.length name /\
     String.get i (import_name_of name) = spec_import_char <$> String.get i name) /\
  import_name_of "aws-lambda-powertools" = "aws_lambda_powertools" /\
  (forall name, contains_char "-" name = false -> import_name_of name = name) /\
  (forall w scratch ev,
     exists data,
       fst (invoke w scratch ev) = Returned data /\
       (data = initial_response \/
        exists package_name,
          properties_of ev !! "PackageName" = Some package_name /\
          data !! "PackageName" = Some package_name /\
          data !! "PackageImportName" = Some (import_name_of package_name))).
Proof.
  split; [| split; [| split]].
  - intros name i. split; [apply import_name_length | apply import_name_get].
  - reflexivity.
  - apply import_name_without_hyphen.
  - intros w scratch ev.
    destruct (invoke_result w scratch ev) as (data & st & Hi & Hd & [-> | Hp]).
    + rewrite Hi. exists initial_response. split; [reflexivity | left; reflexivity].
    + rewrite Hi. exists data. split; [reflexivity |]. right.
      destruct Hp as (b & n & rt & a & v & z & l1 & l2 & _ & Hn & _ & _ & Hr & _).
      exists n. split; [exact Hn |]. rewrite <- Hd, Hr. split; reflexivity.
Qed.


Lemma within_refl p : within p p = true.
Proof. unfold within. rewrite String.eqb_refl. reflexivity. Qed.

Lemma remove_if_exists_spec d s :
  exists s',
    remove_if_exists d s = (Returned tt, s') /\ (d ∉ fs s') /\ (fs s' ⊆ fs s).
Proof.
  unfold remove_if_exists, rmtree, path_exists, bind, get, ret, emit, set_fs, modify.
  repeat (cbn in *; case_exists); try contradiction;
    eexists; (split; [reflexivity |]); cbn.
  - split; [| set_solver].
    rewrite elem_of_filter, within_refl. intros [? _]. discriminate.
  - split; [assumption | reflexivity].
Qed.

(** The loop that removes the staging directories returns, and none of them
    exists afterwards; it creates nothing. *)
Lemma remove_dirs_spec dirs s :
  exists s',
    for_each dirs remove_if_exists s = (Returned tt, s') /\
    (forall d, d ∈ dirs -> d ∉ fs s') /\ (fs s' ⊆ fs s).
Proof.
  revert s. induction dirs as [| d dirs IH]; intros s.
  - exists s. split; [reflexivity |]. split; [| reflexivity]. intros d Hd. inversion Hd.
  - destruct (remove_if_exists_spec d s) as (s1 & H1 & Hd1 & Hsub1).
    destruct (IH s1) as (s2 & H2 & Hd2 & Hsub2).
    exists s2. cbn [for_each]. unfold bind. rewrite H1. split; [exact H2 |]. split.
    + intros d' [-> | Hin]%elem_of_cons; [set_solver | apply Hd2, Hin].
    + set_solver.
Qed.

Lemma remove_temp_dirs_spec s :
  exists s',
    remove_temp_dirs s = (Returned tt, s') /\
    (site_packages_dir ∉ fs s') /\ (python_dir ∉ fs s') /\ (fs s' ⊆ fs s).
Proof.
  destruct (remove_dirs_spec temp_dirs s) as (s' & H & Hd & Hsub).
  exists s'. split; [exact H |].
  split; [apply Hd; unfold temp_dirs; set_solver |].
  split; [apply Hd; unfold temp_dirs; set_solver | exact Hsub].
Qed.

(** After [create_layer_package] has entered its [try], whatever step
    fails or not, neither staging directory exists. *)
Lemma create_layer_package_removes_staging w package_name package_version runtime_version s r s' :
  package_name <> "" -> package_version <> "" -> runtime_version <> "" ->
  create_layer_package w package_name package_version runtime_version s = (r, s') ->
  (site_packages_dir ∉ fs s') /\ (python_dir ∉ fs s').
Proof.
  intros Hn Hv Hrt. unfold create_layer_package. cbn [forallb].
  rewrite (proj2 (String.eqb_neq _ _) Hn), (proj2 (String.eqb_neq _ _) Hv),
    (proj2 (String.eqb_neq _ _) Hrt). cbn [negb andb].
  intros H. apply try_finally_inv in H as (r1 & s1 & r2 & _ & Hf & _).
  destruct (remove_temp_dirs_spec s1) as (s2 & Hf' & Hs & Hp & _).
  rewrite Hf' in Hf. injection Hf as _ <-. split; assumption.
Qed.

(** Version resolution does not touch the scratch file system, and a
    version it returns is not empty. *)
Lemma get_latest_package_version_spec w package_name s r s' :
  get_latest_package_version w package_name s = (r, s') ->
  fs s' = fs s /\ match r with Returned v => v <> "" | Raised _ => True end.
Proof.
  unfold get_latest_package_version, try_except, bind, emit, modify, raise, ret.
  destruct (http_request w _) as [e | status data]; cbn.
  { intros [= <- <-]. split; [reflexivity | exact I]. }
  destruct (negb (status =? 200)%Z); cbn.
  { intros [= <- <-]. split; [reflexivity | exact I]. }
  destruct data as [e | [[v |] |]]; cbn; try (intros [= <- <-]; split; [reflexivity | exact I]).
  destruct (String.eqb_spec v ""); cbn; intros [= <- <-]; (split; [reflexivity |]);
    [exact I | assumption].
Qed.

Lemma required_present bucket_name package_name runtime architecture :
  missing_props [("BucketName", Some bucket_name); ("PackageName", Some package_name);
                 ("Runtime", Some runtime); ("Architecture", Some architecture)] = [] ->
  package_name <> "" /\ runtime <> "".
Proof.
  unfold missing_props. cbn.
  destruct (String.eqb_spec bucket_name ""), (String.eqb_spec package_name ""),
    (String.eqb_spec runtime ""), (String.eqb_spec architecture ""); cbn;
    intros H; try discriminate H; split; assumption.
Qed.

(** The scratch file system after the [try] body: untouched, or without
    staging directories and without any archive that was handed to the
    upload. *)
Lemma build_and_publish_cleanup w ev s r s' :
  build_and_publish w ev s = (r, s') ->
  fs s' = fs s \/
  ((site_packages_dir ∉ fs s') /\ (python_dir ∉ fs s') /\
   exists l, effects s' = effects s ++ l /\
             forall zip_file bucket_name s3_key,
               UploadFile zip_file bucket_name s3_key ∈ l -> zip_file ∉ fs s').
Proof.
  assert (forall e, (Raised e : result unit, s) = (r, s') -> fs s' = fs s) as Hstop
    by (intros e [= _ <-]; reflexivity).
  unfold build_and_publish.
  destruct (bool_decide_reflect (missing_props
              [("BucketName", properties_of ev !! "BucketName");
               ("PackageName", properties_of ev !! "PackageName");
               ("Runtime", properties_of ev !! "Runtime");
               ("Architecture", properties_of ev !! "Architecture")] = [])) as [Hm | Hm];
    cbn [negb]; [| left; eapply Hstop; eassumption].
  destruct (not_supported _); [left; eapply Hstop; eassumption |].
  destruct (properties_of ev !! "BucketName") as [bucket_name |];
    [| left; eapply Hstop; eassumption].
  destruct (properties_of ev !! "PackageName") as [package_name |];
    [| left; eapply Hstop; eassumption].
  destruct (properties_of ev !! "Runtime") as [runtime |];
    [| left; eapply Hstop; eassumption].
  destruct (properties_of ev !! "Architecture") as [architecture |];
    [| left; eapply Hstop; eassumption].
  clear Hstop. apply required_present in Hm as [Hn Hrt]. intros H.
  apply bind_inv in H as [(package_version & s1 & Hv & H) | (e & Hv & ->)].
  2: { left. apply get_latest_package_version_spec in Hv as [Hfs _]. exact Hfs. }
  pose proof (quiet_get_latest_package_version _ _ _ _ _ Hv) as [_ (l1 & He1 & Hl1)].
  apply get_latest_package_version_spec in Hv as [_ Hne].
  right.
  apply bind_inv in H as [(zip_file & s2 & Hz & H) | (e & Hz & ->)].
  2: { pose proof (quiet_create_layer_package _ _ _ _ _ _ _ Hz) as [_ (l2 & He2 & Hl2)].
       apply create_layer_package_removes_staging in Hz as [Hs Hp]; try assumption.
       split; [exact Hs |]. split; [exact Hp |].
       exists (l1 ++ l2). rewrite He2, He1, app_assoc. split; [reflexivity |].
       intros z b k Hin. exfalso.
       assert (Forall local_effect (l1 ++ l2)) as Hl by (apply Forall_app; split; assumption).
       rewrite Forall_forall in Hl. exact (Hl _ Hin). }
  pose proof (quiet_create_layer_package _ _ _ _ _ _ _ Hz) as [_ (l2 & He2 & Hl2)].
  apply create_layer_package_removes_staging in Hz as [Hs Hp]; try assumption.
  assert (forall r3 s3,
            upload w zip_file bucket_name (s3_key_of runtime architecture package_name) s2
              = (r3, s3) ->
            (site_packages_dir ∉ fs s3) /\ (python_dir ∉ fs s3) /\
            exists l, effects s3 = effects s ++ l /\
                      forall z b k, UploadFile z b k ∈ l -> z ∉ fs s3) as Hup.
  { intros r3 s3 Hu. apply upload_spec in Hu as (_ & Hfs & (l3 & He3 & Hl3) & _).
    rewrite Hfs. split; [set_solver |]. split; [set_solver |].
    exists ((l1 ++ l2) ++ UploadFile zip_file bucket_name
              (s3_key_of runtime architecture package_name) :: l3).
    rewrite He3, He2, He1, !app_assoc. split; [reflexivity |].
    intros z b k Hin.
    assert (Forall local_effect (l1 ++ l2)) as Hl by (apply Forall_app; split; assumption).
    rewrite Forall_forall in Hl, Hl3.
    apply elem_of_app in Hin as [Hin | Hin]; [exfalso; exact (Hl _ Hin) |].
    apply elem_of_cons in Hin as [[= -> _ _] | Hin]; [set_solver |].
    exfalso; exact (Hl3 _ Hin). }
  apply bind_inv in H as [([] & s3 & Hu & H) | (e & Hu & ->)].
  2: { exact (Hup _ _ Hu). }
  destruct (Hup _ _ Hu) as (Hs3 & Hp3 & l & He & Hl).
  cbn in H. injection H as _ <-. cbn.
  split; [exact Hs3 |]. split; [exact Hp3 |].
  eexists (l ++ [_]). rewrite He, app_assoc. split; [reflexivity |].
  intros z b k Hin. apply elem_of_app in Hin as [Hin | Hin]; [exact (Hl _ _ _ Hin) |].
  apply list_elem_of_singleton in Hin. discriminate.
Qed.

(** X14. After an invocation the scratch file system is as it was found, or
    it holds neither staging directory and no archive that was handed to the
    upload. *)
Lemma invoke_cleanup w scratch ev :
  fs (snd (invoke w scratch ev)) = scratch \/
  ((site_packages_dir ∉ fs (snd (invoke w scratch ev))) /\
   (python_dir ∉ fs (snd (invoke w scratch ev))) /\
   forall zip_file bucket_name s3_key,
     UploadFile zip_file bucket_name s3_key ∈ effects (snd (invoke w scratch ev)) ->
     zip_file ∉ fs (snd (invoke w scratch ev))).
Proof.
  destruct (decide (RequestType ev = Some "Delete")) as [Hdel | Hreq].
  { rewrite (builder_invoke_delete _ _ _ Hdel). left. reflexivity. }
  destruct (build_and_publish w ev (initial_state scratch)) as [r s'] eqn:Hb.
  rewrite (invoke_build _ _ _ _ _ Hreq Hb).
  apply build_and_publish_cleanup in Hb as [Hfs | (Hs & Hp & l & He & Hl)].
  - left. destruct r as [[] | e]; exact Hfs.
  - right. cbn [initial_state effects app] in He.
    destruct r as [[] | e]; cbn [snd after_failure fs effects];
      (split; [exact Hs |]); (split; [exact Hp |]); intros z b k Hin.
    + rewrite He in Hin. exact (Hl _ _ _ Hin).
    + rewrite He in Hin. apply elem_of_app in Hin as [Hin | Hin]; [exact (Hl _ _ _ Hin) |].
      apply list_elem_of_singleton in Hin. discriminate.
Qed.

(** C5, where the code departs from it. The archive step raises after it
    has opened its output file: the handler reports FAILED with both staging
    directories removed, and the archive is still in the scratch root when
    it returns, since only the upload is wrapped in the removal of the
    archive. *)
Theorem archive_left_when_archiving_raises :
  fst (invoke archive_fails_world ∅ (create_event "layer-bucket" "boto3"))
    = Returned initial_response /\
  zip_file_of "boto3" "1.35.0" "python3.13" = "/tmp/boto3-python3.13-1.35.0.zip" /\
  ("/tmp/boto3-python3.13-1.35.0.zip"
     ∈ fs (snd (invoke archive_fails_world ∅ (create_event "layer-bucket" "boto3")))) /\
  (site_packages_dir
     ∉ fs (snd (invoke archive_fails_world ∅ (create_event "layer-bucket" "boto3")))) /\
  (python_dir
     ∉ fs (snd (invoke archive_fails_world ∅ (create_event "layer-bucket" "boto3")))) /\
  uploaded_keys (effects (snd (invoke archive_fails_world ∅
                                 (create_event "layer-bucket" "boto3")))) = [] /\
  last (effects (snd (invoke archive_fails_world ∅ (create_event "layer-bucket" "boto3"))))
    = Some (Send (cfnresponse.Signal "FAILED" initial_response
                    (Some ("Lambda Layer creation failed: Layer package creation failed: "
                           +:+ "[Errno 28] No space left on device")))).
Proof.
  split; [vm_compute; reflexivity |].
  split; [vm_compute; reflexivity |].
  split; [apply (bool_decide_eq_true _); vm_compute; reflexivity |].
  split; [apply (bool_decide_eq_false _); vm_compute; reflexivity |].
  split; [apply (bool_decide_eq_false _); vm_compute; reflexivity |].
  split; vm_compute; reflexivity.
Qed.

(** The same build with an archive step that succeeds leaves nothing
    behind, also when stale staging directories and a stale archive were
    found. *)
Example healthy_build_leaves_scratch_clean :
  elements (fs (snd (invoke (healthy_world "1.35.0")
                       {[ "/tmp/site-packages"; "/tmp/python";
                          "/tmp/boto3-python3.13-1.35.0.zip" ]}
                       (create_event "layer-bucket" "boto3"))))
  = ["/tmp"].
Proof. vm_compute. reflexivity. Qed.


(** ** Further properties of the orchestrator and its helpers *)

Lemma adds_refl P s : adds P s s.
Proof. exists []. rewrite app_nil_r. split; [reflexivity | constructor]. Qed.

Lemma adds_trans P s1 s2 s3 : adds P s1 s2 -> adds P s2 s3 -> adds P s1 s3.
Proof.
  intros (l1 & He1 & Hl1) (l2 & He2 & Hl2).
  exists (l1 ++ l2). rewrite He2, He1, app_assoc. split; [reflexivity |].
  apply Forall_app; split; assumption.
Qed.

Lemma adds_emit (P : effect -> Prop) e : P e -> respects (adds P) (emit e).
Proof.
  intros He. apply respects_modify. intros s.
  exists [e]. split; [reflexivity |]. constructor; [exact He | constructor].
Qed.

Lemma adds_set_fs P f : respects (adds P) (set_fs f).
Proof. apply respects_modify. intros s. apply (adds_refl P {| response_data := _ |}). Qed.

Ltac adds_step P :=
  first
    [ apply (respects_bind (adds P) (adds_trans P))
    | apply (respects_try_except (adds P) (adds_trans P))
    | apply (respects_try_finally (adds P) (adds_trans P))
    | apply (respects_for_each (adds P) (adds_refl P) (adds_trans P))
    | apply (respects_ret (adds P) (adds_refl P))
    | apply (respects_raise (adds P) (adds_refl P))
    | apply (respects_get (adds P) (adds_refl P))
    | apply adds_set_fs
    | apply adds_emit; first [exact I | split; reflexivity]
    | match goal with
      | |- respects _ (match ?x with _ => _ end) => destruct x
      | |- forall _, _ => intros
      end ].

Lemma adds_remove_temp_dirs P :
  (forall p, P (Rmtree p)) -> respects (adds P) remove_temp_dirs.
Proof.
  intros HP. unfold remove_temp_dirs, remove_if_exists, rmtree, path_exists.
  repeat adds_step P; apply adds_emit, HP.
Qed.

Lemma build_effect_create_layer_package w package_name package_version runtime_version :
  respects (adds (build_effect (package_name +:+ "==" +:+ package_version)))
    (create_layer_package w package_name package_version runtime_version).
Proof.
  unfold create_layer_package, remove_temp_dirs, remove_if_exists, rmtree, os_remove, run_step,
    move, path_exists.
  repeat adds_step (build_effect (package_name +:+ "==" +:+ package_version)).
Qed.

Lemma bind_returned {S A B} (m : M S A) (k : A -> M S B) s b s' :
  bind m k s = (Returned b, s') ->
  exists a s1, m s = (Returned a, s1) /\ k a s1 = (Returned b, s').
Proof.
  intros H. apply bind_inv in H as [(a & s1 & Hm & Hk) | (e & _ & He)]; [eauto | discriminate].
Qed.

Lemma nonempty_arguments package_name package_version runtime_version :
  package_name <> "" -> package_version <> "" -> runtime_version <> "" ->
  negb (forallb (fun v => negb (String.eqb v ""))
          [package_name; package_version; runtime_version]) = false.
Proof.
  intros Hn Hv Hrt. cbn [forallb].
  rewrite (proj2 (String.eqb_neq _ _) Hn), (proj2 (String.eqb_neq _ _) Hv),
    (proj2 (String.eqb_neq _ _) Hrt). reflexivity.
Qed.

(** X6. [create_layer_package] called with an empty name, version or
    runtime raises ValueError before it does anything: no effect, and the
    scratch file system, stale staging directories included, is left as it
    was. *)
Theorem create_layer_package_rejects_empty_arguments
    (w : world) (package_name package_version runtime_version : string) (s : state) :
  package_name = "" \/ package_version = "" \/ runtime_version = "" ->
  create_layer_package w package_name package_version runtime_version s =
    (Raised (Raise ValueError "Missing required parameters for package installation."), s).
Proof.
  intros H. unfold create_layer_package. cbn [forallb].
  destruct H as [-> | [-> | ->]]; cbn [String.eqb negb andb];
    repeat match goal with |- context [String.eqb ?x ""] => destruct (String.eqb x "") end;
    reflexivity.
Qed.

Lemma create_layer_package_rejects_empty_arguments_witness :
  create_layer_package (healthy_world "1.35.0") "boto3" "" "python3.13"
    (initial_state stale_scratch) =
    (Raised (Raise ValueError "Missing required parameters for package installation."),
     initial_state stale_scratch).
Proof.
  apply (create_layer_package_rejects_empty_arguments (healthy_world "1.35.0")
           "boto3" "" "python3.13" (initial_state stale_scratch)).
  right; left; reflexivity.
Defined.




Lemma adds_weaken (P Q : effect -> Prop) s s' :
  (forall e, P e -> Q e) -> adds P s s' -> adds Q s s'.
Proof.
  intros HPQ (l & He & Hl). exists l. split; [exact He |].
  eapply Forall_impl; [exact Hl | exact HPQ].
Qed.

Lemma removal_build_effect requirement e : removal e -> build_effect requirement e.
Proof. destruct e; cbn; tauto. Qed.

Lemma adds_os_remove P p : (forall q, P (Remove q)) -> respects (adds P) (os_remove p).
Proof. intros HP. unfold os_remove, path_exists. repeat adds_step P; apply adds_emit, HP. Qed.

Lemma adds_run_step P e st outputs : P e -> respects (adds P) (run_step e st outputs).
Proof. intros HP. unfold run_step. repeat adds_step P; apply adds_emit, HP. Qed.

Lemma adds_move P w src dst : (forall a b, P (Move a b)) -> respects (adds P) (move w src dst).
Proof. intros HP. unfold move, path_exists. repeat adds_step P; apply adds_emit, HP. Qed.

Lemma run_step_returned e st outputs s s' :
  run_step e st outputs s = (Returned tt, s') -> effects s' = effects s ++ [e].
Proof.
  unfold run_step, bind, emit, set_fs, modify, ret, raise.
  destruct (leaves_output st), (raises st); cbn; intros [= <-]; reflexivity.
Qed.

Lemma supported_nonempty package_name : package_name ∈ SUPPORTED_PACKAGES -> package_name <> "".
Proof.
  unfold SUPPORTED_PACKAGES. rewrite !elem_of_cons, elem_of_nil.
  intros [-> | [-> | [-> | [-> | [-> | []]]]]]; discriminate.
Qed.


(** What a returning [create_layer_package] has done, up to its final
    cleanup, which starts in [s1]. *)
Lemma installer_runs_none l :
  Forall (fun e => removal e \/ after_install e) l -> installer_runs l = [].
Proof.
  induction 1 as [| e l He _ IH]; [reflexivity |].
  unfold installer_runs in *. cbn [omap list_omap]. rewrite IH.
  destruct e; cbn in *; try reflexivity; destruct He as [[] | []].
Qed.

Lemma installer_runs_once before after requirement target :
  Forall removal before -> Forall after_install after ->
  installer_runs (before ++ PipInstall requirement target :: after) = [(requirement, target)].
Proof.
  intros Hb Ha. unfold installer_runs. rewrite omap_app. cbn [omap list_omap].
  fold (installer_runs before). fold (installer_runs after).
  rewrite (installer_runs_none before), (installer_runs_none after); [reflexivity | |];
    (eapply Forall_impl; [eassumption | intros e He; tauto]).
Qed.

Lemma create_layer_package_returned
    w package_name package_version runtime_version s s' zip_file :
  package_name <> "" -> package_version <> "" -> runtime_version <> "" ->
  create_layer_package w package_name package_version runtime_version s
    = (Returned zip_file, s') ->
  zip_file = zip_file_of package_name package_version runtime_version /\
  (exists s1, zip_file ∈ fs s1 /\ remove_temp_dirs s1 = (Returned tt, s')) /\
  (exists before after,
     effects s' = effects s ++ before
                    ++ PipInstall (package_name +:+ "==" +:+ package_version) site_packages_dir
                    :: after /\
     Forall removal before /\
     Forall after_install after /\
     installer_runs (before
                       ++ PipInstall (package_name +:+ "==" +:+ package_version)
                            site_packages_dir :: after)
       = [(package_name +:+ "==" +:+ package_version, site_packages_dir)]).
Proof.
  intros Hn Hv Hrt H.
  unfold create_layer_package in H. rewrite nonempty_arguments in H by assumption.
  apply try_finally_inv in H as (r1 & s1 & r2 & Hm & Hf & Hr2).
  destruct (remove_temp_dirs_spec s1) as (s2 & Hf' & _).
  rewrite Hf' in Hf. injection Hf as <- <-. subst r1.
  unfold try_except in Hm.
  destruct (bind _ _ s) as [[z | e0] s0] eqn:Hb in Hm; [| discriminate].
  injection Hm as -> ->.
  set (requirement := package_name +:+ "==" +:+ package_version) in *.
  set (zf := zip_file_of package_name package_version runtime_version) in *.
  apply bind_returned in Hb as ([] & sa & H0 & Hb).
  apply bind_returned in Hb as (stale & sb & H1 & Hb).
  apply bind_returned in Hb as ([] & sc & H2 & Hb).
  apply bind_returned in Hb as ([] & sd & H3 & Hb).
  apply bind_returned in Hb as ([] & se & H4 & Hb).
  apply bind_returned in Hb as ([] & sf & H5 & Hb).
  apply bind_returned in Hb as ([] & sg & H6 & Hb).
  apply bind_returned in Hb as (created & sh & H7 & Hb).
  injection H7 as <- <-.
  destruct (decide (zf ∈ fs sg)) as [Hin | Hout].
  2: { rewrite (bool_decide_eq_false_2 _ Hout) in Hb. discriminate Hb. }
  rewrite (bool_decide_eq_true_2 _ Hin) in Hb. injection Hb as <- <-.
  split; [reflexivity |].
  split; [exists sg; split; assumption |].
  apply (adds_remove_temp_dirs removal) in H0 as (la & Ea & Hla); [| intros; exact I].
  injection H1 as _ <-.
  assert (adds removal sa sc) as (lc & Ec & Hlc).
  { destruct stale.
    - eapply (adds_os_remove removal); [intros; exact I | exact H2].
    - injection H2 as <-. apply adds_refl. }
  apply run_step_returned in H3 as Ed.
  apply (adds_run_step after_install) in H4 as (le & Ee & Hle); [| exact I].
  apply (adds_move after_install) in H5 as (lf & Ef & Hlf); [| intros; exact I].
  apply (adds_run_step after_install) in H6 as (lg & Eg & Hlg); [| exact I].
  apply (adds_remove_temp_dirs after_install) in Hf' as (lh & Eh & Hlh);
    [| intros; exact I].
  exists (la ++ lc), (le ++ lf ++ lg ++ lh).
  split.
  { rewrite Eh, Eg, Ef, Ee, Ed, Ec, Ea, <- !app_assoc. reflexivity. }
  assert (Forall removal (la ++ lc)) as Hbefore by (apply Forall_app; split; assumption).
  assert (Forall after_install (le ++ lf ++ lg ++ lh)) as Hafter
    by (repeat (apply Forall_app; split); assumption).
  split; [exact Hbefore |]. split; [exact Hafter |].
  apply installer_runs_once; assumption.
Qed.




Lemma bind_raise_eq {S A B} (m : M S A) (k : A -> M S B) s e s1 :
  m s = (Raised e, s1) -> bind m k s = (Raised e, s1).
Proof. intros H. unfold bind. rewrite H. reflexivity. Qed.








(** After an installation that wrote nothing, the move finds no flat
    staging directory. *)
Example move_of_missing_staging_directory :
  fst (create_layer_package empty_install_world "boto3" "1.35.0" "python3.13"
         (initial_state stale_scratch))
  = Raised (Raise Exception
              ("Layer package creation failed: "
               +:+ "[Errno 2] No such file or directory: '/tmp/site-packages'")).
Proof. vm_compute. reflexivity. Qed.



(** The state after the one registry request. *)
Lemma get_latest_package_version_run w package_name s :
  exists r,
    get_latest_package_version w package_name s =
      (r, {| response_data := response_data s; fs := fs s;
             effects := effects s ++ [HttpGet (registry_url package_name)] |}).
Proof.
  unfold get_latest_package_version, try_except, bind, emit, modify, raise, ret, registry_url.
  destruct (http_request w _) as [e | status data]; cbn; [eexists; reflexivity |].
  destruct (negb (status =? 200)%Z); cbn; [eexists; reflexivity |].
  destruct data as [e | [[v |] |]]; cbn; try (eexists; reflexivity).
  destruct (String.eqb v ""); cbn; eexists; reflexivity.
Qed.

(** X10. [get_latest_package_version] makes exactly one request, to
    [https://pypi.org/pypi/<name>/json], and changes nothing else; it
    returns a version exactly when the answer has status 200 and a
    non-empty [info.version], which is then the version returned; whatever
    it raises is an Exception whose text starts with Failed to get latest
    version for the package. *)
Theorem registry_resolution (w : world) (package_name : string) (s : state) :
  exists r,
    get_latest_package_version w package_name s =
      (r, {| response_data := response_data s; fs := fs s;
             effects := effects s ++ [HttpGet (registry_url package_name)] |}) /\
    (forall version,
       r = Returned version <->
       version <> "" /\
       http_request w (registry_url package_name)
         = HttpResponse 200 (Json (Some (Some version)))) /\
    (forall e,
       r = Raised e ->
       class_of e = Exception /\
       exists cause,
         str_of e = "Failed to get latest version for " +:+ package_name +:+ ": " +:+ cause).
Proof.
  destruct (get_latest_package_version_run w package_name s) as (r & Hrun).
  exists r. split; [exact Hrun |].
  revert Hrun.
  unfold get_latest_package_version, try_except, bind, emit, modify, raise, ret, registry_url.
  destruct (http_request w _) as [e | status data]; cbn.
  { intros [= <-]. split.
    - intros v. split; [discriminate | intros [_ H]; discriminate H].
    - intros e' [= <-]. split; [reflexivity | eexists; reflexivity]. }
  destruct (Z.eqb_spec status 200) as [-> | Hst]; cbn.
  2: { intros [= <-]. split.
       - intros v. split; [discriminate | intros [_ [= H _]]; contradiction].
       - intros e' [= <-]. split; [reflexivity | eexists; reflexivity]. }
  destruct data as [e | [[v |] |]]; cbn;
    try (intros [= <-]; split;
         [ intros v'; split; [discriminate | intros [_ H]; discriminate H]
         | intros e' [= <-]; split; [reflexivity | eexists; reflexivity] ]).
  destruct (String.eqb_spec v "") as [-> | Hv]; cbn; intros [= <-]; split.
  - intros v'. split; [discriminate | intros [Hne [= <-]]; contradiction].
  - intros e' [= <-]. split; [reflexivity | eexists; reflexivity].
  - intros v'. split.
    + intros [= <-]. split; [exact Hv | reflexivity].
    + intros [_ [= <-]]. reflexivity.
  - intros e' H. discriminate H.
Qed.

(** X11. The causes that [get_latest_package_version] reports: a status
    other than 200 is reported with its number, whatever the body; a 200
    answer whose [info] has no version, or an empty one, as missing version
    information; an error of the request itself with its own text. *)
Theorem registry_failure_causes (w : world) (package_name : string) (s : state) :
  (forall status data,
     http_request w (registry_url package_name) = HttpResponse status data ->
     status <> 200%Z ->
     fst (get_latest_package_version w package_name s)
       = Raised (Raise Exception
                   ("Failed to get latest version for " +:+ package_name +:+ ": "
                    +:+ "PyPI request failed with status " +:+ str_int status))) /\
  (forall version,
     http_request w (registry_url package_name) = HttpResponse 200 (Json (Some version)) ->
     version = None \/ version = Some "" ->
     fst (get_latest_package_version w package_name s)
       = Raised (Raise Exception
                   ("Failed to get latest version for " +:+ package_name +:+ ": "
                    +:+ "Version information not found in PyPI response"))) /\
  (forall e,
     http_request w (registry_url package_name) = HttpRaises e ->
     fst (get_latest_package_version w package_name s)
       = Raised (Raise Exception
                   ("Failed to get latest version for " +:+ package_name +:+ ": "
                    +:+ str_of e))).
Proof.
  unfold get_latest_package_version, try_except, bind, emit, modify, raise, ret, registry_url.
  split; [| split].
  - intros status data -> Hst. cbn.
    destruct (Z.eqb_spec status 200) as [-> | _]; [contradiction | reflexivity].
  - intros version -> Hv. cbn. destruct Hv as [-> | ->]; reflexivity.
  - intros e ->. reflexivity.
Qed.

Example registry_404_message :
  fst (get_latest_package_version registry_404_world "boto3" (initial_state ∅))
  = Raised (Raise Exception
              "Failed to get latest version for boto3: PyPI request failed with status 404").
Proof. vm_compute. reflexivity. Qed.

Lemma get_latest_package_version_returned w package_name s version s1 :
  get_latest_package_version w package_name s = (Returned version, s1) ->
  version <> "" /\
  http_request w (registry_url package_name) = HttpResponse 200 (Json (Some (Some version))) /\
  effects s1 = effects s ++ [HttpGet (registry_url package_name)].
Proof.
  unfold get_latest_package_version, try_except, bind, emit, modify, raise, ret, registry_url.
  destruct (http_request w _) as [e | status data]; cbn; [discriminate |].
  destruct (Z.eqb_spec status 200) as [-> | Hst]; cbn; [| discriminate].
  destruct data as [e | [[v |] |]]; cbn; try discriminate.
  destruct (String.eqb_spec v "") as [-> | Hv]; cbn; [discriminate |].
  intros [= <- <-]. repeat split. exact Hv.
Qed.

Lemma get_latest_package_version_raised w package_name s e s1 :
  get_latest_package_version w package_name s = (Raised e, s1) ->
  fs s1 = fs s /\ response_data s1 = response_data s /\
  effects s1 = effects s ++ [HttpGet (registry_url package_name)].
Proof.
  intros H. destruct (get_latest_package_version_run w package_name s) as (r & Hr).
  rewrite Hr in H. injection H as _ <-. repeat split.
Qed.

Lemma upload_effects w zip_file bucket_name s3_key s r s' :
  upload w zip_file bucket_name s3_key s = (r, s') ->
  exists l, effects s' = effects s ++ UploadFile zip_file bucket_name s3_key :: l
            /\ Forall removal l.
Proof.
  unfold upload, try_finally, bind, emit, modify, path_exists, os_remove, path_exists,
    bind, get, ret, raise, emit, set_fs, modify.
  destruct (s3_upload_file w zip_file bucket_name s3_key) as [e |];
    repeat (cbn in *; case_exists); try contradiction; intros [= <- <-]; cbn.
  - exists [Remove zip_file]. rewrite <- app_assoc. split; [reflexivity |]. repeat constructor.
  - exists []. split; [reflexivity | constructor].
  - exists [Remove zip_file]. rewrite <- app_assoc. split; [reflexivity |]. repeat constructor.
  - exists []. split; [reflexivity | constructor].
Qed.

Lemma supported_of_check package_name :
  not_supported (Some package_name) = false -> package_name ∈ SUPPORTED_PACKAGES.
Proof.
  intros H. destruct (decide (package_name ∈ SUPPORTED_PACKAGES)) as [Hin | Hout];
    [exact Hin |].
  apply not_supported_iff in Hout. congruence.
Qed.

(** The stage at which the [try] body of the handler stops. *)
Lemma build_and_publish_trace w ev s r s' :
  build_and_publish w ev s = (r, s') ->
  (s' = s /\ exists e, r = Raised e) \/
  exists bucket_name package_name runtime architecture,
    properties_of ev !! "BucketName" = Some bucket_name /\
    properties_of ev !! "PackageName" = Some package_name /\
    properties_of ev !! "Runtime" = Some runtime /\
    properties_of ev !! "Architecture" = Some architecture /\
    package_name ∈ SUPPORTED_PACKAGES /\ runtime <> "" /\
    ((exists e, r = Raised e /\
                get_latest_package_version w package_name s = (Raised e, s')) \/
     exists package_version s1,
       get_latest_package_version w package_name s = (Returned package_version, s1) /\
       ((exists e, r = Raised e /\
                   create_layer_package w package_name package_version runtime s1
                     = (Raised e, s')) \/
        exists zip_file s2,
          create_layer_package w package_name package_version runtime s1
            = (Returned zip_file, s2) /\
          ((exists e, r = Raised e /\
                      upload w zip_file bucket_name
                        (s3_key_of runtime architecture package_name) s2 = (Raised e, s')) \/
           exists s3,
             upload w zip_file bucket_name (s3_key_of runtime architecture package_name) s2
               = (Returned tt, s3) /\
             r = Returned tt /\
             fs s' = fs s3 /\
             response_data s' =
               update_response_data bucket_name (s3_key_of runtime architecture package_name)
                 package_name package_version (import_name_of package_name)
                 runtime architecture (response_data s3) /\
             effects s' =
               effects s3 ++ [Send (cfnresponse.Signal "SUCCESS" (response_data s') None)]))).
Proof.
  assert (forall e, (Raised e : result unit, s) = (r, s') ->
            s' = s /\ exists e', r = Raised e') as Hstop
    by (intros e [= <- <-]; split; [reflexivity | eexists; reflexivity]).
  unfold build_and_publish.
  destruct (bool_decide_reflect (missing_props
              [("BucketName", properties_of ev !! "BucketName");
               ("PackageName", properties_of ev !! "PackageName");
               ("Runtime", properties_of ev !! "Runtime");
               ("Architecture", properties_of ev !! "Architecture")] = [])) as [Hm | Hm];
    cbn [negb]; [| left; eapply Hstop; eassumption].
  destruct (not_supported _) eqn:Hsup; [left; eapply Hstop; eassumption |].
  destruct (properties_of ev !! "BucketName") as [bucket_name |];
    [| left; eapply Hstop; eassumption].
  destruct (properties_of ev !! "PackageName") as [package_name |];
    [| left; eapply Hstop; eassumption].
  destruct (properties_of ev !! "Runtime") as [runtime |];
    [| left; eapply Hstop; eassumption].
  destruct (properties_of ev !! "Architecture") as [architecture |];
    [| left; eapply Hstop; eassumption].
  clear Hstop. apply required_present in Hm as [_ Hrt]. apply supported_of_check in Hsup.
  intros H. right. exists bucket_name, package_name, runtime, architecture.
  repeat (split; [first [reflexivity | assumption] |]).
  apply bind_inv in H as [(package_version & s1 & Hv & H) | (e & Hv & ->)];
    [right | left; eauto].
  exists package_version, s1. split; [exact Hv |].
  apply bind_inv in H as [(zip_file & s2 & Hz & H) | (e & Hz & ->)]; [right | left; eauto].
  exists zip_file, s2. split; [exact Hz |].
  apply bind_inv in H as [([] & s3 & Hu & H) | (e & Hu & ->)]; [right | left; eauto].
  exists s3. split; [exact Hu |].
  cbn in H. injection H as <- <-. repeat split.
Qed.

Lemma all_present (properties : gmap string string) :
  absent_or_empty properties = [] ->
  exists bucket_name package_name runtime architecture,
    properties !! "BucketName" = Some bucket_name /\
    properties !! "PackageName" = Some package_name /\
    properties !! "Runtime" = Some runtime /\
    properties !! "Architecture" = Some architecture.
Proof.
  intros Hm.
  assert (forall k, k ∈ required_properties -> exists v, properties !! k = Some v) as Hk.
  { intros k Hin. destruct (properties !! k) as [v |] eqn:E; [eauto |].
    assert (k ∈ absent_or_empty properties) as Habs
      by (apply absent_or_empty_spec; split; [exact Hin | left; exact E]).
    rewrite Hm in Habs. inversion Habs. }
  destruct (Hk "BucketName") as [b Hb]; [unfold required_properties; set_solver |].
  destruct (Hk "PackageName") as [n Hn]; [unfold required_properties; set_solver |].
  destruct (Hk "Runtime") as [rt Hrt]; [unfold required_properties; set_solver |].
  destruct (Hk "Architecture") as [a Ha]; [unfold required_properties; set_solver |].
  exists b, n, rt, a. tauto.
Qed.

(** X12. When version resolution fails for a valid request, the pipeline
    stops there: the only effects are the one registry request and the
    FAILED signal, whose reason is the resolver's message prefixed with
    Lambda Layer creation failed; nothing is installed, the scratch file
    system is untouched and the result record is empty. *)
Theorem registry_failure_stops_build
    (w : world) (scratch : gset string) (ev : event) (package_name : string) (e : exn) :
  RequestType ev <> Some "Delete" ->
  absent_or_empty (properties_of ev) = [] ->
  properties_of ev !! "PackageName" = Some package_name ->
  package_name ∈ SUPPORTED_PACKAGES ->
  fst (get_latest_package_version w package_name (initial_state scratch)) = Raised e ->
  invoke w scratch ev =
    (Returned initial_response,
     {| response_data := initial_response; fs := scratch;
        effects := [HttpGet (registry_url package_name);
                    Send (cfnresponse.Signal "FAILED" initial_response
                            (Some ("Lambda Layer creation failed: " +:+ str_of e)))] |}).
Proof.
  intros Hreq Hm Hn Hsup Hv.
  destruct (all_present _ Hm) as (b & n & rt & a & Hb & Hn' & Hrt & Ha).
  rewrite Hn in Hn'. injection Hn' as <-.
  destruct (get_latest_package_version_run w package_name (initial_state scratch))
    as (r & Hrun).
  rewrite Hrun in Hv. cbn [fst] in Hv. subst r.
  assert (build_and_publish w ev (initial_state scratch) =
            (Raised e,
             {| response_data := initial_response; fs := scratch;
                effects := [HttpGet (registry_url package_name)] |})) as Hbuild.
  { unfold build_and_publish. rewrite missing_props_absent_or_empty.
    rewrite bool_decide_eq_true_2 by exact Hm. cbn [negb].
    rewrite Hb, Hn, Hrt, Ha.
    destruct (not_supported (Some package_name)) eqn:Hns.
    { apply not_supported_iff in Hns. contradiction. }
    rewrite (bind_raise_eq _ _ _ _ _ Hrun). reflexivity. }
  rewrite (invoke_build _ _ _ _ _ Hreq Hbuild). reflexivity.
Qed.

Lemma registry_failure_stops_build_witness :
  invoke registry_404_world stale_scratch (create_event "layer-bucket" "boto3") =
    (Returned initial_response,
     {| response_data := initial_response; fs := stale_scratch;
        effects :=
          [HttpGet (registry_url "boto3");
           Send (cfnresponse.Signal "FAILED" initial_response
                   (Some ("Lambda Layer creation failed: "
                          +:+ "Failed to get latest version for boto3: "
                          +:+ "PyPI request failed with status 404")))] |}).
Proof.
  apply (registry_failure_stops_build registry_404_world stale_scratch
           (create_event "layer-bucket" "boto3") "boto3"
           (Raise Exception
              "Failed to get latest version for boto3: PyPI request failed with status 404")).
  - discriminate.
  - vm_compute. reflexivity.
  - reflexivity.
  - unfold SUPPORTED_PACKAGES. set_solver.
  - vm_compute. reflexivity.
Defined.

Lemma local_not_signal x : local_effect x -> ~ is_signal x.
Proof. destruct x; cbn; tauto. Qed.

(** X13. Every invocation of the orchestrator signals exactly once, as its
    last effect, with the dictionary it returns: either SUCCESS without a
    reason, or FAILED with the empty result record and a reason that starts
    with Lambda Layer creation failed. *)
Theorem orchestrator_signals_once (w : world) (scratch : gset string) (ev : event) :
  exists data st before sig,
    invoke w scratch ev = (Returned data, st) /\
    response_data st = data /\
    effects st = before ++ [Send sig] /\
    Forall (fun x => ~ is_signal x) before /\
    cfnresponse.sig_data sig = data /\
    ((cfnresponse.sig_status sig = "SUCCESS" /\ cfnresponse.sig_reason sig = None) \/
     (cfnresponse.sig_status sig = "FAILED" /\ data = initial_response /\
      exists cause,
        cfnresponse.sig_reason sig = Some ("Lambda Layer creation failed: " +:+ cause))).
Proof.
  destruct (decide (RequestType ev = Some "Delete")) as [Hdel | Hreq].
  { rewrite (builder_invoke_delete _ _ _ Hdel). eexists _, _, [], _.
    split; [reflexivity |]. split; [reflexivity |]. split; [reflexivity |].
    split; [constructor |]. split; [reflexivity |]. left. split; reflexivity. }
  destruct (build_and_publish w ev (initial_state scratch)) as [r s'] eqn:Hb.
  rewrite (invoke_build _ _ _ _ _ Hreq Hb).
  apply build_and_publish_cases in Hb. destruct r as [[] | e].
  - destruct Hb as (b & n & rt & a & v & z & l1 & l2 & _ & _ & _ & _ & _ & He & Hl1 & Hl2 & _).
    cbn [initial_state effects app] in He.
    eexists _, _, (l1 ++ UploadFile z b (s3_key_of rt a n) :: l2), _.
    split; [reflexivity |]. split; [reflexivity |].
    split; [rewrite He, <- app_assoc; reflexivity |].
    split.
    { apply Forall_app; split; [| constructor; [intros [] |]];
        (eapply Forall_impl; [eassumption | exact local_not_signal]). }
    split; [reflexivity |]. left. split; reflexivity.
  - destruct Hb as [Hr (l & He & Hl)]. cbn [initial_state effects app response_data] in He, Hr.
    eexists _, _, l, _. split; [reflexivity |]. split; [reflexivity |].
    split; [cbn [after_failure effects]; rewrite He; reflexivity |].
    split.
    { eapply Forall_impl; [exact Hl |]. intros x [Hx | Hx]; [exact (local_not_signal x Hx) |].
      destruct Hx as (? & ? & ? & ? & ? & _ & _ & _ & _ & ->). intros []. }
    split; [reflexivity |]. right. split; [reflexivity |]. split; [exact Hr |].
    eexists; reflexivity.
Qed.


Lemma initial_dom : dom initial_response = list_to_set result_fields.
Proof. apply set_eq. intros k. unfold initial_response, result_fields.
  rewrite !dom_insert, dom_empty. set_solver. Qed.

(** What an invocation returns: the empty record, or a record populated
    from the event's properties. *)
Lemma invoke_populated (w : world) (scratch : gset string) (ev : event) :
  exists data,
    fst (invoke w scratch ev) = Returned data /\
    dom data = list_to_set result_fields /\
    (data = initial_response \/
     exists bucket_name package_name runtime architecture package_version,
       properties_of ev !! "BucketName" = Some bucket_name /\
       properties_of ev !! "PackageName" = Some package_name /\
       properties_of ev !! "Runtime" = Some runtime /\
       properties_of ev !! "Architecture" = Some architecture /\
       data <> initial_response /\
       data = update_response_data bucket_name (s3_key_of runtime architecture package_name)
                package_name package_version (import_name_of package_name)
                runtime architecture initial_response).
Proof.
  destruct (invoke_result w scratch ev) as (data & st & Hi & Hd & [-> | Hp]).
  - rewrite Hi. exists initial_response. split; [reflexivity |].
    split; [apply initial_dom | left; reflexivity].
  - rewrite Hi. exists data. split; [reflexivity |].
    destruct Hp as (b & n & rt & a & v & z & l1 & l2 & Hb & Hn & Hrt & Ha & Hr & _).
    rewrite <- Hd, Hr. cbn [initial_state response_data]. split.
    { unfold update_response_data. rewrite !dom_insert_L, initial_dom.
      unfold result_fields. set_solver. }
    right. exists b, n, rt, a, v. repeat (split; [assumption |]).
    split; [| reflexivity].
    assert (update_response_data b (s3_key_of rt a n) n v (import_name_of n) rt a
              initial_response !! "S3Location"
            = Some ("s3://" +:+ b +:+ "/" +:+ s3_key_of rt a n)) as Hloc by reflexivity.
    intros Heq. rewrite Heq in Hloc.
    apply (f_equal (fun o => match o with Some (String _ _) => true | _ => false end))
      in Hloc.
    vm_compute in Hloc. discriminate Hloc.
Qed.

(** X15. The dictionary an invocation returns always has exactly the
    eight result fields. When it is not the empty record, the fields fit
    together: S3Bucket and PackageName echo the event's properties, S3Key is
    the key built from the event's runtime, architecture and package name,
    S3Location is [s3://<S3Bucket>/<S3Key>], and the import name is derived
    from the package name. *)
Theorem populated_result_is_consistent (w : world) (scratch : gset string) (ev : event) :
  exists data,
    fst (invoke w scratch ev) = Returned data /\
    dom data = list_to_set result_fields /\
    (data = initial_response \/
     exists bucket_name package_name runtime architecture package_version,
       properties_of ev !! "BucketName" = Some bucket_name /\
       properties_of ev !! "PackageName" = Some package_name /\
       properties_of ev !! "Runtime" = Some runtime /\
       properties_of ev !! "Architecture" = Some architecture /\
       data <> initial_response /\
       data !! "S3Bucket" = Some bucket_name /\
       data !! "S3Key" = Some (s3_key_of runtime architecture package_name) /\
       data !! "S3Location" =
         Some ("s3://" +:+ bucket_name +:+ "/" +:+ s3_key_of runtime architecture package_name) /\
       data !! "PackageName" = Some package_name /\
       data !! "PackageVersion" = Some package_version /\
       data !! "PackageImportName" = Some (import_name_of package_name)).
Proof.
  destruct (invoke_populated w scratch ev) as (data & Hi & Hdom & [-> | Hp]).
  - exists initial_response. split; [exact Hi |]. split; [exact Hdom | left; reflexivity].
  - exists data. split; [exact Hi |]. split; [exact Hdom |]. right.
    destruct Hp as (b & n & rt & a & v & Hb & Hn & Hrt & Ha & Hne & Hdata).
    exists b, n, rt, a, v. repeat (split; [assumption |]).
    rewrite Hdata. repeat split.
Qed.

Lemma repr_char_plain c : plain_char c = true -> repr_char single_quote c = String c "".
Proof.
  unfold plain_char, repr_char. cbn zeta. intros H.
  apply andb_prop in H as [H Hb]. apply andb_prop in H as [H Hq].
  apply andb_prop in H as [Hlo Hhi].
  apply negb_true_iff in Hb, Hq. rewrite Hb.
  change single_quote with "'"%char. rewrite Hq.
  apply N.leb_le in Hlo, Hhi.
  destruct (N.eqb_spec (N_of_ascii c) 10) as [E | _]; [rewrite E in Hlo; lia |].
  destruct (N.eqb_spec (N_of_ascii c) 13) as [E | _]; [rewrite E in Hlo; lia |].
  destruct (N.eqb_spec (N_of_ascii c) 9) as [E | _]; [rewrite E in Hlo; lia |].
  destruct (N.ltb_spec (N_of_ascii c) 32) as [E | _]; [lia |].
  destruct (N.leb_spec 127 (N_of_ascii c)) as [E | _]; [lia |].
  destruct (N.eqb_spec (N_of_ascii c) 173) as [E | _]; [rewrite E in Hhi; lia |].
  reflexivity.
Qed.

Lemma plain_no_single_quote s : plain s = true -> contains_char single_quote s = false.
Proof.
  unfold plain. induction s as [| c s IH]; [reflexivity |].
  cbn [list_ascii_of_string forallb contains_char]. intros H.
  apply andb_prop in H as [Hc Hs]. rewrite (IH Hs), orb_false_r.
  unfold plain_char in Hc. cbn zeta in Hc.
  apply andb_prop in Hc as [Hc _]. apply andb_prop in Hc as [_ Hq].
  apply negb_true_iff in Hq. rewrite Ascii.eqb_sym. exact Hq.
Qed.

Lemma concat_repr_plain s :
  plain s = true ->
  String.concat "" (map (repr_char single_quote) (list_ascii_of_string s)) = s.
Proof.
  unfold plain. induction s as [| c s IH]; [reflexivity |].
  cbn [list_ascii_of_string forallb map]. intros H.
  apply andb_prop in H as [Hc Hs]. rewrite (repr_char_plain c Hc).
  specialize (IH Hs).
  destruct (map (repr_char single_quote) (list_ascii_of_string s)) as [| x xs] eqn:Hm.
  - cbn in IH. subst s. reflexivity.
  - change (String.concat "" (String c "" :: x :: xs))
      with (String c (String.concat "" (x :: xs))).
    rewrite IH. reflexivity.
Qed.

Lemma repr_plain s : plain s = true -> repr s = "'" +:+ s +:+ "'".
Proof.
  intros H. unfold repr. rewrite (plain_no_single_quote s H). cbn [andb].
  rewrite (concat_repr_plain s H). reflexivity.
Qed.

(** X19. In a populated result, when the event's runtime and
    architecture are printable ASCII without quote or backslash (as
    [python3.13] and [arm64] are), CompatibleRuntimes is the text
    [['<runtime>']] and CompatibleArchitectures the text
    [['<architecture>']]: the Python rendering of a one-element list, not
    the bare value. *)
Theorem compatibility_fields_are_list_texts
    (w : world) (scratch : gset string) (ev : event) (runtime architecture : string) :
  fst (invoke w scratch ev) <> Returned initial_response ->
  properties_of ev !! "Runtime" = Some runtime ->
  properties_of ev !! "Architecture" = Some architecture ->
  plain runtime = true -> plain architecture = true ->
  exists data,
    fst (invoke w scratch ev) = Returned data /\
    data !! "CompatibleRuntimes" = Some ("['" +:+ runtime +:+ "']") /\
    data !! "CompatibleArchitectures" = Some ("['" +:+ architecture +:+ "']").
Proof.
  intros Hne Hrt Ha Hprt Hpa.
  destruct (invoke_populated w scratch ev) as (data & Hi & _ & [-> | Hp]);
    [contradiction |].
  destruct Hp as (b & n & rt' & a' & v & _ & _ & Hrt' & Ha' & _ & Hdata).
  rewrite Hrt in Hrt'. injection Hrt' as <-. rewrite Ha in Ha'. injection Ha' as <-.
  exists data. split; [exact Hi |]. rewrite Hdata.
  assert (forall x, "[" +:+ ("'" +:+ x +:+ "'") +:+ "]" = "['" +:+ x +:+ "']") as Hfmt.
  { intros x. change ("[" +:+ ("'" +:+ x +:+ "'") +:+ "]")
      with (String "[" (String "'" ((x +:+ "'") +:+ "]"))).
    change ("['" +:+ x +:+ "']") with (String "[" (String "'" (x +:+ "']"))).
    rewrite append_assoc. reflexivity. }
  split.
  - transitivity (Some ("[" +:+ repr runtime +:+ "]")); [reflexivity |].
    rewrite (repr_plain _ Hprt), Hfmt. reflexivity.
  - transitivity (Some ("[" +:+ repr architecture +:+ "]")); [reflexivity |].
    rewrite (repr_plain _ Hpa), Hfmt. reflexivity.
Qed.

Lemma compatibility_fields_are_list_texts_witness :
  exists data,
    fst (invoke (healthy_world "1.35.0") stale_scratch (create_event "layer-bucket" "boto3"))
      = Returned data /\
    data !! "CompatibleRuntimes" = Some ("['" +:+ "python3.13" +:+ "']") /\
    data !! "CompatibleArchitectures" = Some ("['" +:+ "arm64" +:+ "']").
Proof.
  apply (compatibility_fields_are_list_texts (healthy_world "1.35.0") stale_scratch
           (create_event "layer-bucket" "boto3") "python3.13" "arm64");
    try reflexivity.
  intros H.
  apply (f_equal (fun r => match r with Returned d => d !! "S3Key" | Raised _ => None end)) in H.
  vm_compute in H. discriminate H.
Defined.

(** X20. In a populated result the compatibility fields are [str] of the
    one-element lists of the event's runtime and architecture: the [repr]
    of the value between square brackets. *)
Theorem compatibility_fields_are_reprs (w : world) (scratch : gset string) (ev : event) :
  fst (invoke w scratch ev) <> Returned initial_response ->
  exists data runtime architecture,
    fst (invoke w scratch ev) = Returned data /\
    properties_of ev !! "Runtime" = Some runtime /\
    properties_of ev !! "Architecture" = Some architecture /\
    data !! "CompatibleRuntimes" = Some ("[" +:+ repr runtime +:+ "]") /\
    data !! "CompatibleArchitectures" = Some ("[" +:+ repr architecture +:+ "]").
Proof.
  intros Hne.
  destruct (invoke_populated w scratch ev) as (data & Hi & _ & [-> | Hp]);
    [contradiction |].
  destruct Hp as (b & n & rt & a & v & _ & _ & Hrt & Ha & _ & Hdata).
  exists data, rt, a. split; [exact Hi |]. split; [exact Hrt |]. split; [exact Ha |].
  rewrite Hdata. split; reflexivity.
Qed.

Lemma compatibility_fields_are_reprs_witness :
  exists data runtime architecture,
    fst (invoke (healthy_world "1.35.0") stale_scratch (create_event "layer-bucket" "boto3"))
      = Returned data /\
    properties_of (create_event "layer-bucket" "boto3") !! "Runtime" = Some runtime /\
    properties_of (create_event "layer-bucket" "boto3") !! "Architecture"
      = Some architecture /\
    data !! "CompatibleRuntimes" = Some ("[" +:+ repr runtime +:+ "]") /\
    data !! "CompatibleArchitectures" = Some ("[" +:+ repr architecture +:+ "]").
Proof.
  apply (compatibility_fields_are_reprs (healthy_world "1.35.0") stale_scratch
           (create_event "layer-bucket" "boto3")).
  intros H.
  apply (f_equal (fun r => match r with Returned d => d !! "S3Key" | Raised _ => None end)) in H.
  vm_compute in H. discriminate H.
Defined.


Lemma after_install_build_effect requirement e : after_install e -> build_effect requirement e.
Proof. destruct e; cbn; tauto. Qed.

Lemma build_effect_not_upload requirement l zip_file bucket_name s3_key :
  Forall (build_effect requirement) l -> UploadFile zip_file bucket_name s3_key ∉ l.
Proof.
  intros Hl Hin. rewrite Forall_forall in Hl. exact (Hl _ Hin).
Qed.

Lemma removal_not_upload l zip_file bucket_name s3_key :
  Forall removal l -> UploadFile zip_file bucket_name s3_key ∉ l.
Proof.
  intros Hl Hin. rewrite Forall_forall in Hl. exact (Hl _ Hin).
Qed.

(** X16. The version is pinned end to end: a populated result reports as
    PackageVersion the non-empty [info.version] that the registry answered
    for the event's package, the installer was run exactly once in the
    whole invocation, on [<name>==<that version>], and the file uploaded is
    the archive [zip_file_of] names for that name, version and runtime; the
    effects are,
    in order, the registry request, removals, the installation, further
    build steps, the upload, its cleanup and the SUCCESS signal. *)
Theorem reported_version_is_pinned (w : world) (scratch : gset string) (ev : event) :
  fst (invoke w scratch ev) <> Returned initial_response ->
  exists data package_name runtime version bucket_name s3_key before after cleanup,
    fst (invoke w scratch ev) = Returned data /\
    properties_of ev !! "PackageName" = Some package_name /\
    properties_of ev !! "Runtime" = Some runtime /\
    http_request w (registry_url package_name) = HttpResponse 200 (Json (Some (Some version))) /\
    version <> "" /\
    data !! "PackageVersion" = Some version /\
    effects (snd (invoke w scratch ev)) =
      HttpGet (registry_url package_name) :: before
        ++ PipInstall (package_name +:+ "==" +:+ version) site_packages_dir :: after
        ++ UploadFile (zip_file_of package_name version runtime) bucket_name s3_key :: cleanup
        ++ [Send (cfnresponse.Signal "SUCCESS" data None)] /\
    Forall removal before /\
    Forall after_install after /\
    Forall removal cleanup /\
    installer_runs (effects (snd (invoke w scratch ev)))
      = [(package_name +:+ "==" +:+ version, site_packages_dir)].
Proof.
  intros Hne.
  destruct (decide (RequestType ev = Some "Delete")) as [Hdel | Hreq].
  { rewrite (builder_invoke_delete _ _ _ Hdel) in Hne. contradiction. }
  destruct (build_and_publish w ev (initial_state scratch)) as [r s'] eqn:Hb.
  rewrite (invoke_build _ _ _ _ _ Hreq Hb) in *.
  pose proof (build_and_publish_cases _ _ _ _ _ Hb) as Hcases.
  destruct r as [[] | e].
  2: { destruct Hcases as [Hr _]. cbn in Hne. rewrite Hr in Hne. contradiction. }
  clear Hcases Hne. cbn [fst snd].
  apply build_and_publish_trace in Hb
    as [[_ [e He]] | (b & n & rt & a & Hpb & Hpn & Hprt & Hpa & Hsup & Hrt & Hb)];
    [discriminate He |].
  destruct Hb as [(e & He & _) | (v & s1 & Hv & Hb)]; [discriminate He |].
  destruct Hb as [(e & He & _) | (z & s2 & Hz & Hb)]; [discriminate He |].
  destruct Hb as [(e & He & _) | (s3 & Hu & _ & Hfs & Hr & He)]; [discriminate He |].
  apply get_latest_package_version_returned in Hv as (Hvne & Hreg & E1).
  apply create_layer_package_returned in Hz
    as (-> & _ & (before & after & E2 & Hbef & Haft & _));
    [| exact (supported_nonempty _ Hsup) | exact Hvne | exact Hrt].
  pose proof (upload_effects _ _ _ _ _ _ _ Hu) as (cleanup & E3 & Hcl).
  exists (response_data s'), n, rt, v, b, (s3_key_of rt a n), before, after, cleanup.
  split; [reflexivity |]. split; [exact Hpn |]. split; [exact Hprt |].
  split; [exact Hreg |]. split; [exact Hvne |].
  split.
  { rewrite Hr. unfold update_response_data.
    do 3 (rewrite lookup_insert_ne by discriminate). apply lookup_insert_eq. }
  assert (effects s' =
            HttpGet (registry_url n) :: before
              ++ PipInstall (n +:+ "==" +:+ v) site_packages_dir :: after
              ++ UploadFile (zip_file_of n v rt) b (s3_key_of rt a n) :: cleanup
              ++ [Send (cfnresponse.Signal "SUCCESS" (response_data s') None)]) as Heff.
  { rewrite He, E3, E2, E1. cbn [initial_state effects app]. rewrite <- !app_assoc.
    reflexivity. }
  split; [exact Heff |].
  split; [exact Hbef |]. split; [exact Haft |]. split; [exact Hcl |].
  rewrite Heff. unfold installer_runs. cbn [omap list_omap]. rewrite omap_app.
  cbn [omap list_omap]. rewrite omap_app. cbn [omap list_omap]. rewrite omap_app.
  cbn [omap list_omap].
  fold (installer_runs before). fold (installer_runs after). fold (installer_runs cleanup).
  rewrite (installer_runs_none before), (installer_runs_none after),
    (installer_runs_none cleanup); [reflexivity | | |];
    (eapply Forall_impl; [eassumption | intros x Hx; first [left; exact Hx | right; exact Hx]]).
Qed.

Lemma reported_version_is_pinned_witness :
  exists data package_name runtime version bucket_name s3_key before after cleanup,
    fst (invoke (healthy_world "1.35.0") stale_scratch (create_event "layer-bucket" "boto3"))
      = Returned data /\
    properties_of (create_event "layer-bucket" "boto3") !! "PackageName" = Some package_name /\
    properties_of (create_event "layer-bucket" "boto3") !! "Runtime" = Some runtime /\
    http_request (healthy_world "1.35.0") (registry_url package_name)
      = HttpResponse 200 (Json (Some (Some version))) /\
    version <> "" /\
    data !! "PackageVersion" = Some version /\
    effects (snd (invoke (healthy_world "1.35.0") stale_scratch
                    (create_event "layer-bucket" "boto3"))) =
      HttpGet (registry_url package_name) :: before
        ++ PipInstall (package_name +:+ "==" +:+ version) site_packages_dir :: after
        ++ UploadFile (zip_file_of package_name version runtime) bucket_name s3_key :: cleanup
        ++ [Send (cfnresponse.Signal "SUCCESS" data None)] /\
    Forall removal before /\
    Forall after_install after /\
    Forall removal cleanup /\
    installer_runs (effects (snd (invoke (healthy_world "1.35.0") stale_scratch
                                    (create_event "layer-bucket" "boto3"))))
      = [(package_name +:+ "==" +:+ version, site_packages_dir)].
Proof.
  apply (reported_version_is_pinned (healthy_world "1.35.0") stale_scratch
           (create_event "layer-bucket" "boto3")).
  intros H.
  apply (f_equal (fun r => match r with Returned d => d !! "S3Key" | Raised _ => None end)) in H.
  vm_compute in H. discriminate H.
Defined.


Lemma the_upload_of_a_trace requirement url l2 cleanup tail z b k z' b' k' :
  Forall (build_effect requirement) l2 -> Forall removal cleanup ->
  Forall is_signal tail ->
  UploadFile z b k ∈ HttpGet url :: l2 ++ UploadFile z' b' k' :: cleanup ++ tail ->
  z = z' /\ b = b' /\ k = k'.
Proof.
  intros Hl2 Hcl Htail Hin.
  apply elem_of_cons in Hin as [Hin | Hin]; [discriminate Hin |].
  apply elem_of_app in Hin as [Hin | Hin];
    [exfalso; exact (build_effect_not_upload _ _ _ _ _ Hl2 Hin) |].
  apply elem_of_cons in Hin as [Hin | Hin]; [injection Hin as -> -> ->; tauto |].
  apply elem_of_app in Hin as [Hin | Hin];
    [exfalso; exact (removal_not_upload _ _ _ _ Hcl Hin) |].
  rewrite Forall_forall in Htail. exfalso. exact (Htail _ Hin).
Qed.

(** X17. When the content store refuses the upload, the handler reports
    it: the result record stays empty, the last effect is the FAILED signal
    whose reason is the store's error prefixed with Lambda Layer creation
    failed, and the archive and both staging directories are gone from the
    scratch file system. *)
Theorem upload_failure_is_reported
    (w : world) (scratch : gset string) (ev : event)
    (zip_file bucket_name s3_key : string) (e : exn) :
  UploadFile zip_file bucket_name s3_key ∈ effects (snd (invoke w scratch ev)) ->
  s3_upload_file w zip_file bucket_name s3_key = Some e ->
  fst (invoke w scratch ev) = Returned initial_response /\
  last (effects (snd (invoke w scratch ev)))
    = Some (Send (cfnresponse.Signal "FAILED" initial_response
                    (Some ("Lambda Layer creation failed: " +:+ str_of e)))) /\
  (zip_file ∉ fs (snd (invoke w scratch ev))) /\
  (site_packages_dir ∉ fs (snd (invoke w scratch ev))) /\
  (python_dir ∉ fs (snd (invoke w scratch ev))).
Proof.
  intros Hin Hstore.
  destruct (decide (RequestType ev = Some "Delete")) as [Hdel | Hreq].
  { rewrite (builder_invoke_delete _ _ _ Hdel) in Hin. cbn in Hin.
    apply list_elem_of_singleton in Hin. discriminate Hin. }
  destruct (build_and_publish w ev (initial_state scratch)) as [r s'] eqn:Hb.
  rewrite (invoke_build _ _ _ _ _ Hreq Hb) in *.
  pose proof (build_and_publish_cases _ _ _ _ _ Hb) as Hcases.
  apply build_and_publish_trace in Hb
    as [[-> [e0 ->]] | (b & n & rt & a & Hpb & Hpn & Hprt & Hpa & Hsup & Hrt & Hb)].
  { cbn in Hin. apply list_elem_of_singleton in Hin. discriminate Hin. }
  destruct Hb as [(e0 & -> & Hv) | (v & s1 & Hv & Hb)].
  { apply get_latest_package_version_raised in Hv as (_ & _ & E1).
    cbn [snd after_failure effects] in Hin. rewrite E1 in Hin. cbn in Hin.
    apply elem_of_cons in Hin as [Hin | Hin]; [discriminate Hin |].
    apply list_elem_of_singleton in Hin. discriminate Hin. }
  apply get_latest_package_version_returned in Hv as (Hvne & _ & E1).
  cbn [initial_state effects app] in E1.
  destruct Hb as [(e0 & -> & Hz) | (z & s2 & Hz & Hb)].
  { apply build_effect_create_layer_package in Hz as (l2 & E2 & Hl2).
    cbn [snd after_failure effects] in Hin. rewrite E2, E1 in Hin. cbn in Hin.
    apply elem_of_cons in Hin as [Hin | Hin]; [discriminate Hin |].
    apply elem_of_app in Hin as [Hin | Hin];
      [exfalso; exact (build_effect_not_upload _ _ _ _ _ Hl2 Hin) |].
    apply list_elem_of_singleton in Hin. discriminate Hin. }
  pose proof (build_effect_create_layer_package _ _ _ _ _ _ _ Hz) as (l2 & E2 & Hl2).
  apply create_layer_package_removes_staging in Hz as [Hs2 Hp2];
    [| exact (supported_nonempty _ Hsup) | exact Hvne | exact Hrt].
  destruct Hb as [(e0 & -> & Hu) | (s3 & Hu & -> & _ & _ & He)].
  - pose proof (upload_effects _ _ _ _ _ _ _ Hu) as (cleanup & E3 & Hcl).
    apply upload_spec in Hu as (_ & Hfs & _ & Hres).
    destruct Hcases as [Hr _]. cbn [initial_state response_data] in Hr.
    cbn [fst snd after_failure effects fs] in *.
    rewrite E3, E2, E1 in Hin. cbn [app] in Hin. rewrite <- !app_assoc in Hin.
    cbn [app] in Hin.
    apply (the_upload_of_a_trace _ _ _ _ _ _ _ _ _ _ _ Hl2 Hcl) in Hin
      as (-> & -> & ->); [| repeat constructor].
    rewrite Hres in Hstore. injection Hstore as ->.
    rewrite Hr. split; [reflexivity |]. split; [apply last_snoc |].
    rewrite Hfs. split; [| split].
    + intros Hz'. apply elem_of_difference in Hz' as [_ Hz']. apply Hz'.
      apply elem_of_singleton. reflexivity.
    + intros Hq. apply elem_of_difference in Hq as [Hq _]. contradiction.
    + intros Hq. apply elem_of_difference in Hq as [Hq _]. contradiction.
  - pose proof (upload_effects _ _ _ _ _ _ _ Hu) as (cleanup & E3 & Hcl).
    apply upload_spec in Hu as (_ & _ & _ & Hres). exfalso.
    cbn [snd] in Hin. rewrite He, E3, E2, E1 in Hin. cbn [app] in Hin.
    rewrite <- !app_assoc in Hin. cbn [app] in Hin.
    apply (the_upload_of_a_trace _ _ _ _ _ _ _ _ _ _ _ Hl2 Hcl) in Hin
      as (-> & -> & ->); [| repeat constructor].
    rewrite Hres in Hstore. discriminate Hstore.
Qed.

Lemma upload_failure_is_reported_witness :
  fst (invoke upload_fails_world stale_scratch (create_event "layer-bucket" "boto3"))
    = Returned initial_response /\
  last (effects (snd (invoke upload_fails_world stale_scratch
                        (create_event "layer-bucket" "boto3"))))
    = Some (Send (cfnresponse.Signal "FAILED" initial_response
                    (Some ("Lambda Layer creation failed: "
                           +:+ str_of (Raise (External "S3UploadFailedError")
                                         "Access Denied"))))) /\
  ("/tmp/boto3-python3.13-1.35.0.zip"
     ∉ fs (snd (invoke upload_fails_world stale_scratch
                  (create_event "layer-bucket" "boto3")))) /\
  (site_packages_dir
     ∉ fs (snd (invoke upload_fails_world stale_scratch
                  (create_event "layer-bucket" "boto3")))) /\
  (python_dir
     ∉ fs (snd (invoke upload_fails_world stale_scratch
                  (create_event "layer-bucket" "boto3")))).
Proof.
  apply (upload_failure_is_reported upload_fails_world stale_scratch
           (create_event "layer-bucket" "boto3")
           "/tmp/boto3-python3.13-1.35.0.zip" "layer-bucket" "python313-arm64-boto3.zip"
           (Raise (External "S3UploadFailedError") "Access Denied")).
  - vm_compute. repeat first [apply list_elem_of_here | apply list_elem_of_further].
  - reflexivity.
Defined.


Lemma append_cons c (s1 s2 : string) : String c s1 +:+ s2 = String c (s1 +:+ s2).
Proof. reflexivity. Qed.

Lemma length_append (s1 s2 : string) :
  String.length (s1 +:+ s2) = String.length s1 + String.length s2.
Proof.
  induction s1 as [| c s1 IH]; [reflexivity |].
  rewrite append_cons. cbn [String.length]. rewrite IH. reflexivity.
Qed.

Lemma rfind_from_append c (s1 s2 : string) i found :
  rfind_from c (s1 +:+ s2) i found
  = rfind_from c s2 (i + Z.of_nat (String.length s1))%Z (rfind_from c s1 i found).
Proof.
  revert i found. induction s1 as [| d s1 IH]; intros i found.
  - cbn [String.length rfind_from]. change ("" +:+ s2) with s2. f_equal. lia.
  - rewrite append_cons. cbn [rfind_from String.length]. rewrite IH. f_equal. lia.
Qed.

Lemma rfind_from_absent c (s : string) i found :
  contains_char c s = false -> rfind_from c s i found = found.
Proof.
  revert i found. induction s as [| d s IH]; intros i found; [reflexivity |].
  cbn [contains_char rfind_from]. intros [Hd Hs]%orb_false_iff.
  rewrite Hd. apply IH, Hs.
Qed.

Lemma rfind_from_bounds c (s : string) i found :
  (found < i)%Z ->
  (found <= rfind_from c s i found < i + Z.of_nat (String.length s))%Z
  \/ (rfind_from c s i found = found /\ String.length s = 0).
Proof.
  revert i found. induction s as [| d s IH]; intros i found Hlt.
  - right. split; reflexivity.
  - left. cbn [rfind_from String.length].
    destruct (Ascii.eqb c d).
    + destruct (IH (i + 1)%Z i ltac:(lia)) as [H | [H _]]; [lia | rewrite H; lia].
    + destruct (IH (i + 1)%Z found ltac:(lia)) as [H | [H _]]; [lia | rewrite H; lia].
Qed.

Lemma substring_prefix (s1 s2 : string) :
  String.substring 0 (String.length s1) (s1 +:+ s2) = s1.
Proof.
  induction s1 as [| c s1 IH].
  - cbn [String.length]. destruct ("" +:+ s2); reflexivity.
  - rewrite append_cons. cbn [String.length String.substring]. rewrite IH. reflexivity.
Qed.

(** A stretch of [s] that covers a character other than a dot is not all
    dots. *)
Lemma all_dots_substring (s : string) a n k c :
  a <= k < a + n -> String.get k s = Some c -> c <> "."%char ->
  all_dots (String.substring a n s) = false.
Proof.
  revert a n k. induction s as [| d s IH]; intros a n k Hk Hget Hc.
  - destruct k; discriminate Hget.
  - destruct a as [| a].
    + destruct n as [| n]; [lia |]. cbn [String.substring all_dots].
      destruct k as [| k].
      * cbn in Hget. injection Hget as ->.
        destruct (Ascii.eqb_spec c "."); [contradiction | reflexivity].
      * cbn in Hget. rewrite (IH 0 n k); [apply andb_false_r | lia | exact Hget | exact Hc].
    + destruct k as [| k]; [lia |]. cbn in Hget. cbn [String.substring].
      apply (IH a n k); [lia | exact Hget | exact Hc].
Qed.

Lemma get_after_prefix (s1 : string) c (s2 : string) :
  String.get (String.length s1) (s1 +:+ String c s2) = Some c.
Proof.
  induction s1 as [| d s1 IH]; [reflexivity |].
  rewrite append_cons. cbn [String.length String.get]. exact IH.
Qed.

(** [splitext] of a path that ends in a hyphen, a slash-free stem and
    [.zip] cuts exactly the [.zip]. *)
Lemma splitext_root_zip (pre stem : string) :
  contains_char "/" stem = false ->
  splitext_root (pre +:+ String "-" (stem +:+ ".zip")) = pre +:+ String "-" stem.
Proof.
  intros Hstem.
  assert (pre +:+ String "-" (stem +:+ ".zip") = (pre +:+ String "-" stem) +:+ ".zip") as Hp.
  { rewrite append_assoc, append_cons. reflexivity. }
  set (body := pre +:+ String "-" stem) in *.
  assert (String.length body = String.length pre + S (String.length stem)) as Hlen
    by (unfold body; rewrite length_append; reflexivity).
  assert (rfind "." (pre +:+ String "-" (stem +:+ ".zip")) = Z.of_nat (String.length body))
    as Hdot.
  { rewrite Hp. unfold rfind. rewrite rfind_from_append. cbn. lia. }
  assert (contains_char "/" (String "-" (stem +:+ ".zip")) = false) as Hns.
  { cbn [contains_char]. cbn [Ascii.eqb Bool.eqb andb orb].
    clear -Hstem. induction stem as [| d stem IH]; [reflexivity |].
    rewrite append_cons. cbn [contains_char] in *.
    apply orb_false_iff in Hstem as [Hd Hs]. rewrite Hd. apply IH, Hs. }
  assert (rfind "/" (pre +:+ String "-" (stem +:+ ".zip")) = rfind_from "/" pre 0 (-1)) as Hsep.
  { unfold rfind. rewrite rfind_from_append. apply rfind_from_absent, Hns. }
  assert ((-1 <= rfind_from "/" pre 0 (-1) < Z.of_nat (String.length pre))%Z
          \/ (rfind_from "/" pre 0 (-1) = (-1)%Z /\ String.length pre = 0%nat)) as Hb.
  { destruct (rfind_from_bounds "/" pre 0 (-1) ltac:(lia)) as [H | H]; [left; lia | right; exact H]. }
  unfold splitext_root. rewrite Hdot, Hsep.
  set (sp := rfind_from "/" pre 0 (-1)) in *.
  assert (sp < Z.of_nat (String.length body))%Z as Hlt by lia.
  apply Z.ltb_lt in Hlt. rewrite Hlt.
  rewrite (all_dots_substring _ _ _ (String.length pre) "-"%char).
  - rewrite Nat2Z.id, Hp. apply substring_prefix.
  - rewrite Nat2Z.id. lia.
  - apply get_after_prefix.
  - discriminate.
Qed.

(** X18. The archive is written where it is looked for: for a version
    without a slash, the base name handed to [shutil.make_archive], the
    [splitext] root of the archive path, followed by [.zip] is the archive
    path itself, whatever the package name and the runtime are. *)
Theorem archive_base_round_trip (package_name package_version runtime_version : string) :
  contains_char "/" package_version = false ->
  splitext_root (zip_file_of package_name package_version runtime_version) +:+ ".zip"
  = zip_file_of package_name package_version runtime_version.
Proof.
  intros Hv. unfold zip_file_of, path_join.
  cbn [temp_root String.eqb ends_with Ascii.eqb Bool.eqb andb orb].
  set (file := package_name +:+ "-" +:+ runtime_version +:+ "-" +:+ package_version +:+ ".zip").
  assert (forall dir, dir +:+ file
            = (dir +:+ package_name +:+ "-" +:+ runtime_version)
                +:+ String "-" (package_version +:+ ".zip")) as Hshape.
  { intros dir. unfold file. rewrite !append_assoc. reflexivity. }
  destruct (starts_with "/" file).
  - pose proof (Hshape "") as H0. change ("" +:+ file) with file in H0.
    rewrite H0, splitext_root_zip by exact Hv. rewrite append_assoc. reflexivity.
  - change (temp_root +:+ "/" +:+ file) with ("/tmp/" +:+ file).
    rewrite (Hshape "/tmp/"), splitext_root_zip by exact Hv.
    rewrite append_assoc. reflexivity.
Qed.


Lemma archive_base_round_trip_witness :
  splitext_root (zip_file_of "boto3" "1.35.0" "python3.13") +:+ ".zip"
  = zip_file_of "boto3" "1.35.0" "python3.13".
Proof.
  apply (archive_base_round_trip "boto3" "1.35.0" "python3.13"). reflexivity.
Defined.

(** Without the hypothesis the round trip can fail: a version that ends in
    a slash makes [.zip] a hidden file name, which [splitext] leaves whole. *)
Example archive_base_needs_slash_free_version :
  splitext_root (zip_file_of "boto3" "1/" "python3.13") +:+ ".zip"
  <> zip_file_of "boto3" "1/" "python3.13".
Proof. vm_compute. discriminate. Qed.

End CreateLambdaLayerProofs.

(** * Both entry points *)

Module EntryPoints.
Import BuilderSpec.

(** C9. On a Delete event both handlers return at once: each returns its
    initial dictionary, in which every field is the empty string, signals
    SUCCESS with it exactly once, and does nothing else: the orchestrator
    leaves the scratch file system as it found it and performs no registry
    request, installation, archiving or upload, and the validator's answer
    does not depend on the runtime it runs under. *)
Theorem delete_short_circuits
    (rt : TestLambdaLayer.runtime) (w : CreateLambdaLayer.world)
    (scratch : gset string) (ev : event) :
  RequestType ev = Some "Delete" ->
  CreateLambdaLayer.invoke w scratch ev =
    (Returned CreateLambdaLayer.initial_response,
     {| CreateLambdaLayer.response_data := CreateLambdaLayer.initial_response;
        CreateLambdaLayer.fs := scratch;
        CreateLambdaLayer.effects :=
          [CreateLambdaLayer.Send
             (cfnresponse.Signal "SUCCESS" CreateLambdaLayer.initial_response None)] |}) /\
  Forall (fun k => CreateLambdaLayer.initial_response !! k = Some "") result_fields /\
  TestLambdaLayer.invoke rt ev =
    (Returned TestLambdaLayer.initial_response,
     {| TestLambdaLayer.response_data := TestLambdaLayer.initial_response;
        TestLambdaLayer.sent :=
          [cfnresponse.Signal "SUCCESS" TestLambdaLayer.initial_response None] |}) /\
  Forall (fun k => TestLambdaLayer.initial_response !! k = Some "")
    ("Status" :: "Message" :: ValidatorSpec.test_fields).
Proof.
  intros Hdel.
  split; [apply CreateLambdaLayerProofs.builder_invoke_delete, Hdel |].
  split; [apply CreateLambdaLayerProofs.initial_fields_empty |].
  split; [apply TestLambdaLayerProofs.validator_invoke_delete, Hdel |].
  repeat constructor.
Qed.

Lemma delete_short_circuits_witness :
  RequestType delete_event = Some "Delete" /\
  CreateLambdaLayer.invoke archive_fails_world {[ "/tmp/keep" ]} delete_event =
    (Returned CreateLambdaLayer.initial_response,
     {| CreateLambdaLayer.response_data := CreateLambdaLayer.initial_response;
        CreateLambdaLayer.fs := {[ "/tmp/keep" ]};
        CreateLambdaLayer.effects :=
          [CreateLambdaLayer.Send
             (cfnresponse.Signal "SUCCESS" CreateLambdaLayer.initial_response None)] |}) /\
  Forall (fun k => CreateLambdaLayer.initial_response !! k = Some "") result_fields /\
  TestLambdaLayer.invoke ValidatorSpec.sample_runtime delete_event =
    (Returned TestLambdaLayer.initial_response,
     {| TestLambdaLayer.response_data := TestLambdaLayer.initial_response;
        TestLambdaLayer.sent :=
          [cfnresponse.Signal "SUCCESS" TestLambdaLayer.initial_response None] |}) /\
  Forall (fun k => TestLambdaLayer.initial_response !! k = Some "")
    ("Status" :: "Message" :: ValidatorSpec.test_fields).
Proof.
  split; [reflexivity |].
  apply (delete_short_circuits ValidatorSpec.sample_runtime archive_fails_world
           {[ "/tmp/keep" ]} delete_event).
  reflexivity.
Defined.

End EntryPoints.
